(** * SanctumWriterPro: the Docling conversion adapters

    A shallow embedding of [scripts/convert_document.py] (the one-shot
    command-line adapter) and [scripts/docling_server.py] (the FastAPI
    adapter), followed by the properties of the two adapters.

    Python text ([str]) is modelled by [string]: one [ascii] per character,
    read as a code point below 256, so that [String.length] is Python's
    [len].  Everything outside the two scripts (the Docling library, the
    operating system) is an oracle collected in the record [Env]; the
    adapters are written in a small state-and-exception monad whose
    combinators follow Python's [try]/[except]/[finally]. *)

From Stdlib Require Import ZArith List Bool Ascii String DecimalString Lia.
From stdpp Require Import base decidable gmap strings.

Import ListNotations.
Local Open Scope string_scope.
Local Open Scope Z_scope.

(** ** Text helpers of the Python standard library used by the scripts *)

Module Py.

(** [c.isspace()] for the code points below 256. *)
Definition isspace (c : ascii) : bool :=
  let n := nat_of_ascii c in
  ((9 <=? n) && (n <=? 13) || (28 <=? n) && (n <=? 32)
   || (n =? 133) || (n =? 160))%nat.

(** [c.lower()] for the code points below 256: the ASCII capitals and
    the Latin-1 capitals (all of 192..222 but the multiplication sign). *)
Definition lower_char (c : ascii) : ascii :=
  let n := nat_of_ascii c in
  if ((65 <=? n) && (n <=? 90)
      || (192 <=? n) && (n <=? 222) && negb (n =? 215))%nat
  then ascii_of_nat (n + 32) else c.

(** [s.lower()] *)
Fixpoint lower (s : string) : string :=
  match s with
  | EmptyString => EmptyString
  | String c s' => String (lower_char c) (lower s')
  end.

(** [s.split()]: the maximal runs of characters that are not white
    space, in order; [cur] is the run being read. *)
Fixpoint split_go (cur : string) (s : string) : list string :=
  match s with
  | EmptyString => if String.eqb cur "" then [] else [cur]
  | String c s' =>
      if isspace c
      then (if String.eqb cur "" then split_go "" s'
            else cur :: split_go "" s')
      else split_go (cur ++ String c "") s'
  end.

Definition split (s : string) : list string := split_go "" s.

(** [s.split(sep)] for a one-character separator. *)
Fixpoint split_on_go (sep : ascii) (cur : string) (s : string) : list string :=
  match s with
  | EmptyString => [cur]
  | String c s' =>
      if Ascii.eqb c sep then cur :: split_on_go sep "" s'
      else split_on_go sep (cur ++ String c "") s'
  end.

Definition split_on (sep : ascii) (s : string) : list string :=
  split_on_go sep "" s.

(** [s.rfind(c)], with [None] for Python's [-1]. *)
Fixpoint rfind_go (c : ascii) (s : string) (i : nat) (last : option nat)
  : option nat :=
  match s with
  | EmptyString => last
  | String a s' =>
      rfind_go c s' (S i) (if Ascii.eqb a c then Some i else last)
  end.

Definition rfind (c : ascii) (s : string) : option nat :=
  rfind_go c s 0%nat None.

(** The slices [s[i:]] and [s[:i]]. *)
Definition slice_from (i : nat) (s : string) : string :=
  substring i (String.length s - i) s.

Definition slice_to (i : nat) (s : string) : string :=
  substring 0 i s.

(** [s.lstrip(c)] and [s.rstrip(c)] *)
Fixpoint lstrip (c : ascii) (s : string) : string :=
  match s with
  | String a s' => if Ascii.eqb a c then lstrip c s' else s
  | EmptyString => EmptyString
  end.

Definition rstrip (c : ascii) (s : string) : string :=
  String.rev (lstrip c (String.rev s)).

(** [s.startswith(c)] and [s.endswith(c)] for one character. *)
Definition startswith (c : ascii) (s : string) : bool :=
  match s with
  | String a _ => Ascii.eqb a c
  | EmptyString => false
  end.

Definition endswith (c : ascii) (s : string) : bool :=
  startswith c (String.rev s).

(** Truth value of a text and of an optional text ([None] and the
    empty text are false). *)
Definition truthy (s : string) : bool := negb (String.eqb s "").

Definition truthy_opt (o : option string) : bool :=
  match o with
  | Some s => truthy s
  | None => false
  end.

(** [a or b] where [a] is an optional text. *)
Definition or_else (a : option string) (b : string) : string :=
  match a with
  | Some s => if truthy s then s else b
  | None => b
  end.

End Py.

(** ** [os.path] (POSIX flavour) and [pathlib.Path] *)

Module OsPath.

Definition slash : ascii := "/"%char.
Definition dot : ascii := "."%char.

(** [os.path.basename(p)]: what follows the last slash. *)
Definition basename (p : string) : string :=
  match Py.rfind slash p with
  | Some i => Py.slice_from (S i) p
  | None => p
  end.

(** [os.path.dirname(p)]: what precedes the last slash, without its
    trailing slashes unless it consists of slashes only. *)
Definition dirname (p : string) : string :=
  let head := match Py.rfind slash p with
              | Some i => Py.slice_to (S i) p
              | None => ""
              end in
  if Py.truthy head && Py.truthy (Py.lstrip slash head)
  then Py.rstrip slash head else head.

(** [os.path.join(a, b)] *)
Definition join (a b : string) : string :=
  if Py.startswith slash b then b
  else if negb (Py.truthy a) || Py.endswith slash a then a ++ b
  else a ++ "/" ++ b.

(** [Path(p).name]: the last component, where empty components and
    single dots do not count. *)
Definition name (p : string) : string :=
  List.last (filter (fun part => Py.truthy part && negb (String.eqb part "."))
                    (Py.split_on slash p)) "".

(** [Path(p).suffix]: from the last dot of the name on, when that dot is
    neither its first nor its last character. *)
Definition suffix (p : string) : string :=
  let nm := name p in
  match Py.rfind dot nm with
  | Some i => if ((0 <? i) && (i <? String.length nm - 1))%nat
              then Py.slice_from i nm else ""
  | None => ""
  end.

(** [Path(p).stem]: the name without its suffix. *)
Definition stem (p : string) : string :=
  let nm := name p in
  match Py.rfind dot nm with
  | Some i => if ((0 <? i) && (i <? String.length nm - 1))%nat
              then Py.slice_to i nm else nm
  | None => nm
  end.

End OsPath.

(** ** JSON values and Python dictionaries

    A dictionary literal is the list of its items in source order; the
    result dictionaries of the adapters are built from literals only.
    Their values are the Python values [json.dumps] accepts, and
    [PyObject] for any other object (a bound method, say), named by its
    type. *)

#[local] Set Warnings "-register-all".

Inductive json : Type :=
| JNull
| JBool (b : bool)
| JInt (n : Z)
| JStr (s : string)
| JObj (items : list (string * json))
| PyObject (type_name : string).

Definition dict : Type := list (string * json).

(** [d.get(k)] *)
Fixpoint dict_get (k : string) (d : dict) : option json :=
  match d with
  | [] => None
  | (k', v) :: d' => if String.eqb k k' then Some v else dict_get k d'
  end.

(** [k in d] *)
Definition has_key (k : string) (d : dict) : bool :=
  match dict_get k d with
  | Some _ => true
  | None => false
  end.

(** Truth value of a JSON-representable Python value. *)
Definition json_truthy (v : json) : bool :=
  match v with
  | JNull => false
  | JBool b => b
  | JInt n => negb (n =? 0)
  | JStr s => Py.truthy s
  | JObj items => match items with [] => false | _ => true end
  | PyObject _ => true
  end.

(** The message of the [TypeError] that [json.dumps(v)] raises, if any:
    the first object met that is not JSON serialisable. *)
Fixpoint json_dumps_error (v : json) : option string :=
  match v with
  | PyObject t => Some ("Object of type " ++ t ++ " is not JSON serializable")
  | JObj items =>
      (fix first_error (l : list (string * json)) : option string :=
         match l with
         | [] => None
         | (_, x) :: l' =>
             match json_dumps_error x with
             | Some msg => Some msg
             | None => first_error l'
             end
         end) items
  | _ => None
  end.

Definition json_of_opt_str (o : option string) : json :=
  match o with
  | Some s => JStr s
  | None => JNull
  end.

(** [sub in s] for texts. *)
Fixpoint contains (sub s : string) : bool :=
  String.prefix sub s
  || match s with
     | String _ s' => contains sub s'
     | EmptyString => false
     end.

(** ** The world outside the scripts *)

(** The document object handed back by the external converter: its
    Markdown export (which may raise), its optional title, and the value
    of [getattr(doc, 'num_pages', None)], which the scripts store as they
    find it: [JNull] when the attribute is missing, a number, or any
    other object; on a Docling document [num_pages] is a method, and the
    value is then the bound method, [PyObject "method"]. *)
Record Document : Type := {
  export_to_markdown : string + string;   (* [inl msg]: raises; [inr text] *)
  title : option string;
  num_pages : json
}.

Inductive DocumentConverter : Type := DocumentConverterInstance.

Inductive node : Type :=
| Dir
| File (content : string).

(** What a process wrote with [print]. *)
Inductive printed : Type :=
| PrintText (line : string)
| PrintJson (value : json).          (* [print(json.dumps(value))] *)

Record State : Type := {
  fs : gmap string node;                     (* the paths that exist *)
  converter : option DocumentConverter;      (* the global of the server *)
  convert_calls : list string;               (* sources given to [convert] *)
  stdout : list printed
}.

Definition set_fs (f : gmap string node -> gmap string node) (s : State) : State :=
  {| fs := f (fs s); converter := converter s;
     convert_calls := convert_calls s; stdout := stdout s |}.

Definition set_converter (c : option DocumentConverter) (s : State) : State :=
  {| fs := fs s; converter := c;
     convert_calls := convert_calls s; stdout := stdout s |}.

Definition log_convert (src : string) (s : State) : State :=
  {| fs := fs s; converter := converter s;
     convert_calls := convert_calls s ++ [src]; stdout := stdout s |}.

Definition log_print (p : printed) (s : State) : State :=
  {| fs := fs s; converter := converter s;
     convert_calls := convert_calls s; stdout := stdout s ++ [p] |}.

(** Operations of the operating system that may be refused. *)
Inductive syscall : Type :=
| SysOpen (path : string)
| SysWrite (path : string)
| SysMakedirs (path : string)
| SysMkdtemp
| SysReadUpload.

(** The oracles: every decision that is not taken by the two scripts. *)
Record Env : Type := {
  (* does [from docling.document_converter import DocumentConverter] load *)
  docling_importable : bool;
  (* [DocumentConverter()]: [Some msg] when the constructor raises *)
  converter_init : State -> option string;
  (* [conv.convert(source)]: [inl msg] when it raises *)
  converter_convert : State -> string -> string + Document;
  (* [Some msg] when the operating system refuses the call *)
  os_error : State -> syscall -> option string;
  (* the directory name chosen by [tempfile.mkdtemp()] *)
  mkdtemp_name : State -> string
}.

(** ** Exceptions and the monad of the scripts *)

Inductive exn : Type :=
| Exception (msg : string)
| HTTPException (status_code : Z) (detail : string)
| SystemExit (code : Z).

(** [isinstance(e, Exception)]: [SystemExit] derives from
    [BaseException] only. *)
Definition is_Exception (e : exn) : bool :=
  match e with
  | SystemExit _ => false
  | _ => true
  end.

(** [str(n)] for an integer. *)
Definition str_int (n : Z) : string := NilZero.string_of_int (Z.to_int n).

(** [str(e)]: the message of a plain exception, ["<status>: <detail>"]
    for an [HTTPException], the code for [SystemExit]. *)
Definition str (e : exn) : string :=
  match e with
  | Exception msg => msg
  | HTTPException c d => str_int c ++ ": " ++ d
  | SystemExit c => str_int c
  end.

Inductive outcome (A : Type) : Type :=
| Return (a : A)
| Raise (e : exn).

Arguments Return {A} a.
Arguments Raise {A} e.

Definition M (A : Type) : Type := State -> outcome A * State.

Definition ret {A} (a : A) : M A := fun s => (Return a, s).

Definition raise {A} (e : exn) : M A := fun s => (Raise e, s).

Definition bind {A B} (m : M A) (k : A -> M B) : M B :=
  fun s => match m s with
           | (Return a, s1) => k a s1
           | (Raise e, s1) => (Raise e, s1)
           end.

Notation "'let*' x ':=' m 'in' k" := (bind m (fun x => k))
  (at level 10, x name, m at level 100, k at level 200).
Notation "m ';;' k" := (bind m (fun _ => k))
  (at level 100, k at level 200, right associativity).

(** [try: m  except Exception as e: h e] *)
Definition try_except {A} (m : M A) (h : exn -> M A) : M A :=
  fun s => match m s with
           | (Raise e, s1) => if is_Exception e then h e s1 else (Raise e, s1)
           | r => r
           end.

(** [try: m  finally: c]: [c] runs on every path; what [m] returned or
    raised stands unless [c] itself raises. *)
Definition try_finally {A} (m : M A) (c : M unit) : M A :=
  fun s => match m s with
           | (o, s1) => match c s1 with
                        | (Return _, s2) => (o, s2)
                        | (Raise e, s2) => (Raise e, s2)
                        end
           end.

Definition get_state : M State := fun s => (Return s, s).

Definition modify (f : State -> State) : M unit := fun s => (Return tt, f s).

(** ** The operations the scripts call *)

Section Operations.

Variable env : Env.

(** A call the operating system may refuse: it raises, or does nothing. *)
Definition os_call (c : syscall) : M unit :=
  fun s => match os_error env s c with
           | Some msg => (Raise (Exception msg), s)
           | None => (Return tt, s)
           end.

(** [os.path.exists(p)] *)
Definition os_path_exists (p : string) : M bool :=
  fun s => (Return (bool_decide (is_Some (fs s !! p))), s).

(** [os.makedirs(p, exist_ok=True)]: a path that exists is left as it is. *)
Definition add_dir (p : string) (m : gmap string node) : gmap string node :=
  match m !! p with
  | Some _ => m
  | None => <[p := Dir]> m
  end.

Definition os_makedirs (p : string) : M unit :=
  os_call (SysMakedirs p);;
  modify (set_fs (add_dir p)).

(** [open(p, 'w')]: the file exists and is empty from here on. *)
Definition open_w (p : string) : M unit :=
  os_call (SysOpen p);;
  modify (set_fs (fun m => <[p := File ""]> m)).

(** [f.write(content)] on the file opened at [p]. *)
Definition file_write (p : string) (content : string) : M unit :=
  os_call (SysWrite p);;
  modify (set_fs (fun m => <[p := File content]> m)).

(** [tempfile.mkdtemp()] *)
Definition mkdtemp : M string :=
  os_call SysMkdtemp;;
  let* s := get_state in
  let d := mkdtemp_name env s in
  modify (set_fs (fun m => <[d := Dir]> m));;
  ret d.

(** Is [p] the directory [d] or a path below it, as texts: the test is
    exact for a path without [".."] components. *)
Definition under (d p : string) : bool :=
  String.eqb p d || String.prefix (d ++ "/") p.

(** [shutil.rmtree(d, ignore_errors=True)]: the directory and all that
    is below it are deleted; it never raises. *)
Definition remove_tree (d : string) (m : gmap string node) : gmap string node :=
  filter (fun kv => under d (fst kv) = false) m.

Definition rmtree (d : string) : M unit :=
  modify (set_fs (remove_tree d)).

(** [print(x)] *)
Definition print (p : printed) : M unit := modify (log_print p).

(** [DocumentConverter()] *)
Definition new_DocumentConverter : M DocumentConverter :=
  fun s => match converter_init env s with
           | Some msg => (Raise (Exception msg), s)
           | None => (Return DocumentConverterInstance, s)
           end.

(** [conv.convert(source).document] *)
Definition convert (conv : DocumentConverter) (source : string) : M Document :=
  fun s => match converter_convert env s source with
           | inl msg => (Raise (Exception msg), log_convert source s)
           | inr doc => (Return doc, log_convert source s)
           end.

(** [doc.export_to_markdown()] *)
Definition export (doc : Document) : M string :=
  match export_to_markdown doc with
  | inl msg => raise (Exception msg)
  | inr text => ret text
  end.

End Operations.

(** [d[k]] *)
Definition getitem (k : string) (d : dict) : M json :=
  match dict_get k d with
  | Some v => ret v
  | None => raise (Exception ("'" ++ k ++ "'"))      (* KeyError *)
  end.

(** [json.dumps(v)]: the text of [v], kept as [v] itself, or a
    [TypeError] for a value that is not JSON serialisable. *)
Definition json_dumps (v : json) : M json :=
  match json_dumps_error v with
  | Some msg => raise (Exception msg)
  | None => ret v
  end.

(** ** [scripts/convert_document.py] *)

Module Cli.

Section Script.

Variable env : Env.

Definition convert_document (input_path : string) (output_path : option string)
  : M dict :=
  if negb (docling_importable env) then
    ret [("success", JBool false);
         ("error", JStr "Docling not installed. Run: pip install docling")]
  else
    let* found := os_path_exists input_path in
    if negb found then
      ret [("success", JBool false);
           ("error", JStr ("File not found: " ++ input_path))]
    else
      try_except
        (let* converter := new_DocumentConverter env in
         let* doc := convert env converter input_path in
         let* markdown_content := export doc in
         let metadata :=
           [("title", JStr (Py.or_else (title doc) (OsPath.stem input_path)));
            ("pages", num_pages doc);
            ("source_file", JStr (OsPath.basename input_path))] in
         let* saved_path :=
           match output_path with
           | Some out =>
               if Py.truthy out then
                 os_makedirs env (Py.or_else (Some (OsPath.dirname out)) ".");;
                 open_w env out;;
                 file_write env out markdown_content;;
                 ret (Some out)
               else ret None
           | None => ret None
           end in
         ret [("success", JBool true);
              ("markdown", JStr markdown_content);
              ("metadata", JObj metadata);
              ("saved_path", json_of_opt_str saved_path);
              ("character_count", JInt (Z.of_nat (String.length markdown_content)));
              ("word_count", JInt (Z.of_nat (List.length (Py.split markdown_content))))])
        (fun e =>
           ret [("success", JBool false);
                ("error", JStr (str e))]).

(** The [__main__] block; [sys.exit(c)] raises [SystemExit c].  Both
    [json.dumps] calls stand outside any [try]. *)
Definition main (argv : list string) : M unit :=
  if (List.length argv <? 2)%nat then
    let* text := json_dumps (JObj
      [("success", JBool false);
       ("error", JStr "Usage: python convert_document.py <input_file> [output_file]")]) in
    print (PrintJson text);;
    raise (SystemExit 1)
  else
    let input_file := nth 1 argv "" in
    let output_file :=
      if (2 <? List.length argv)%nat then Some (nth 2 argv "") else None in
    let* result := convert_document input_file output_file in
    let* text := json_dumps (JObj result) in
    print (PrintJson text);;
    let* ok := getitem "success" result in
    raise (SystemExit (if json_truthy ok then 0 else 1)).

(** The exit status of the interpreter: the code given to [sys.exit],
    1 after an exception nobody caught, 0 at the end of the script. *)
Definition exit_status (o : outcome unit) : Z :=
  match o with
  | Return _ => 0
  | Raise (SystemExit c) => c
  | Raise _ => 1
  end.

(** One run of [python convert_document.py ...]: exit status and final state. *)
Definition run (argv : list string) (s : State) : Z * State :=
  match main argv s with
  | (o, s') => (exit_status o, s')
  end.

End Script.

End Cli.

(** ** [scripts/docling_server.py] *)

Module Server.

(** What FastAPI hands to the handler for the multipart field [file]. *)
Record UploadFile : Type := {
  filename : option string;
  content : string
}.

Record Response : Type := {
  status : Z;
  body : json
}.

Definition supported_extensions : list string :=
  [".pdf"; ".docx"; ".doc"; ".pptx"; ".ppt"; ".xlsx"; ".xls"; ".html"; ".htm"].

(** [x in l] for a list of texts. *)
Definition py_in (x : string) (l : list string) : bool :=
  existsb (String.eqb x) l.

Section Script.

Variable env : Env.

(** [await file.read()] *)
Definition file_read (file : UploadFile) : M string :=
  os_call env SysReadUpload;;
  ret (content file).

Definition get_converter : M DocumentConverter :=
  let* s := get_state in
  match converter s with
  | None =>
      print (PrintText "Initializing Docling converter...");;
      let* c := new_DocumentConverter env in
      modify (set_converter (Some c));;
      print (PrintText "Docling converter ready!");;
      ret c
  | Some c => ret c
  end.

Definition root : M json :=
  ret (JObj [("status", JStr "ok"); ("service", JStr "docling");
             ("message", JStr "Docling conversion server is running")]).

Definition health : M json :=
  ret (JObj [("status", JStr "healthy"); ("docling", JBool true)]).

(** [JSONResponse(content)]: the response renders its content with
    [json.dumps] when it is constructed, so a content that is not JSON
    serialisable raises there. *)
Definition JSONResponse (content : json) : M json := json_dumps content.

(** The [try] block of [POST /convert] (lines 108-149), for an upload
    named [fname] and the temporary directory [temp_dir]. *)
Definition convert_body (file : UploadFile) (fname : string)
           (output_path filename : option string) (temp_dir : string) : M json :=
  let temp_path := OsPath.join temp_dir fname in
  open_w env temp_path;;
  let* content := file_read file in
  file_write env temp_path content;;
  let* conv := get_converter in
  let* doc := convert env conv temp_path in
  let* markdown_content := export doc in
  let metadata :=
    [("title", JStr (Py.or_else (title doc) (OsPath.stem fname)));
     ("pages", num_pages doc);
     ("source_file", JStr fname)] in
  let* saved_path :=
    match output_path with
    | Some out =>
        if Py.truthy out then
          let output_filename :=
            Py.or_else filename (OsPath.stem fname ++ ".md") in
          let full_output_path := OsPath.join out output_filename in
          os_makedirs env out;;
          open_w env full_output_path;;
          file_write env full_output_path markdown_content;;
          ret (Some full_output_path)
        else ret None
    | None => ret None
    end in
  JSONResponse (JObj
    [("success", JBool true);
     ("markdown", JStr markdown_content);
     ("metadata", JObj metadata);
     ("saved_path", json_of_opt_str saved_path);
     ("character_count", JInt (Z.of_nat (String.length markdown_content)));
     ("word_count", JInt (Z.of_nat (List.length (Py.split markdown_content))))]).

(** The part of [POST /convert] that follows validation, for an
    upload named [fname]: [mkdtemp], then the [try] block with its
    [except] and [finally] clauses. *)
Definition convert_upload (file : UploadFile) (fname : string)
           (output_path filename : option string) : M json :=
  let* temp_dir := mkdtemp env in
  try_finally
    (try_except
       (convert_body file fname output_path filename temp_dir)
       (fun e => raise (HTTPException 500 ("Conversion failed: " ++ str e))))
    (rmtree temp_dir).

(** The handler of [POST /convert]. *)
Definition convert_document (file : UploadFile)
           (output_path filename : option string) : M json :=
  match Server.filename file with
  | None => raise (HTTPException 400 "No filename provided")
  | Some fname =>
      if negb (Py.truthy fname) then
        raise (HTTPException 400 "No filename provided")
      else
        let ext := Py.lower (OsPath.suffix fname) in
        if negb (py_in ext supported_extensions) then
          raise (HTTPException 400
                   ("Unsupported file type: " ++ ext ++ ". Supported: "
                    ++ String.concat ", " supported_extensions))
        else convert_upload file fname output_path filename
  end.

(** The handler of [POST /convert-url]. *)
Definition convert_from_url (url : string)
           (output_path filename : option string) : M json :=
  try_except
    (let* conv := get_converter in
     let* doc := convert env conv url in
     let* markdown_content := export doc in
     let metadata :=
       [("title", JStr (Py.or_else (title doc) "Document"));
        ("pages", num_pages doc);
        ("source_url", JStr url)] in
     let* saved_path :=
       match output_path with
       | Some out =>
           if Py.truthy out then
             let output_filename := Py.or_else filename "converted.md" in
             let full_output_path := OsPath.join out output_filename in
             os_makedirs env out;;
             open_w env full_output_path;;
             file_write env full_output_path markdown_content;;
             ret (Some full_output_path)
           else ret None
       | None => ret None
       end in
     JSONResponse (JObj
       [("success", JBool true);
        ("markdown", JStr markdown_content);
        ("metadata", JObj metadata);
        ("saved_path", json_of_opt_str saved_path);
        ("character_count", JInt (Z.of_nat (String.length markdown_content)));
        ("word_count", JInt (Z.of_nat (List.length (Py.split markdown_content))))]))
    (fun e => raise (HTTPException 500 ("Conversion failed: " ++ str e))).

(** What FastAPI answers for a handler: 200 with the returned JSON
    body, the status and detail of a raised [HTTPException], and 500
    for any other exception. *)
Definition respond (handler : M json) (s : State) : Response * State :=
  match handler s with
  | (Return b, s') => ({| status := 200; body := b |}, s')
  | (Raise (HTTPException c d), s') =>
      ({| status := c; body := JObj [("detail", JStr d)] |}, s')
  | (Raise _, s') =>
      ({| status := 500; body := JStr "Internal Server Error" |}, s')
  end.

End Script.

End Server.

(** ** Vocabulary of the properties *)

(** [d] is a result produced by one of the adapters in the world [env]:
    returned by the command-line [convert_document], or sent as the JSON
    body by the handlers of [/convert] and [/convert-url]. *)
Inductive produced (env : Env) : dict -> Prop :=
| produced_by_cli input_path output_path s d :
    fst (Cli.convert_document env input_path output_path s) = Return d ->
    produced env d
| produced_by_convert file output_path filename s d :
    fst (Server.convert_document env file output_path filename s)
    = Return (JObj d) ->
    produced env d
| produced_by_convert_url url output_path filename s d :
    fst (Server.convert_from_url env url output_path filename s)
    = Return (JObj d) ->
    produced env d.

(** [d["success"]] is [True]. *)
Definition is_success (d : dict) : bool :=
  match dict_get "success" d with
  | Some (JBool true) => true
  | _ => false
  end.

(** With [success] true the result has [markdown] and no [error]; with
    [success] false it has [error] and no [markdown]. *)
Definition exactly_one_of_markdown_error (d : dict) : Prop :=
  (dict_get "success" d = Some (JBool true)
   /\ has_key "markdown" d = true /\ has_key "error" d = false)
  \/ (dict_get "success" d = Some (JBool false)
      /\ has_key "error" d = true /\ has_key "markdown" d = false).

(** The two counters of a result are those of its [markdown] text. *)
Definition counts_match (d : dict) : Prop :=
  exists md,
    dict_get "markdown" d = Some (JStr md)
    /\ dict_get "character_count" d = Some (JInt (Z.of_nat (String.length md)))
    /\ dict_get "word_count" d
       = Some (JInt (Z.of_nat (List.length (Py.split md)))).

(** [md] is a Markdown text the external converter exported in [env]. *)
Definition exported (env : Env) (md : string) : Prop :=
  exists s source doc,
    converter_convert env s source = inr doc
    /\ export_to_markdown doc = inr md.

(** The success dictionary built by the three conversions, for a text
    the converter exported. *)
Definition success_shape (env : Env) (d : dict) : Prop :=
  exists md,
    exported env md
    /\ dict_get "success" d = Some (JBool true)
    /\ dict_get "markdown" d = Some (JStr md)
    /\ has_key "error" d = false
    /\ dict_get "character_count" d = Some (JInt (Z.of_nat (String.length md)))
    /\ dict_get "word_count" d
       = Some (JInt (Z.of_nat (List.length (Py.split md)))).

(** The failure dictionary of the command-line adapter. *)
Definition failure_shape (d : dict) : Prop :=
  exists msg,
    d = [("success", JBool false); ("error", JStr msg)].

(** The value of the variable [ext] of the [/convert] handler for an
    upload named [fname]: [Path(fname).suffix.lower()]. *)
Definition extension_of (fname : string) : string :=
  Py.lower (OsPath.suffix fname).

(** ** Sample worlds *)

(** A Markdown text of two lines separated by an empty line. *)
Definition newline : string := String (ascii_of_nat 10) "".

Definition sample_markdown : string :=
  "# Report" ++ newline ++ newline ++ "two  words".

Definition empty_state : State :=
  {| fs := ∅; converter := None; convert_calls := []; stdout := [] |}.

(** A state in which the file [p] exists. *)
Definition state_with_file (p : string) : State :=
  {| fs := {[ p := File "%PDF-1.7" ]}; converter := None;
     convert_calls := []; stdout := [] |}.

Definition document_of (md : string) : Document :=
  {| export_to_markdown := inr md; title := None; num_pages := JInt 1 |}.

(** Docling is installed, nothing is refused, every source converts to
    the Markdown text [md]. *)
Definition env_converting_to (md : string) : Env :=
  {| docling_importable := true;
     converter_init := fun _ => None;
     converter_convert := fun _ _ => inr (document_of md);
     os_error := fun _ _ => None;
     mkdtemp_name := fun _ => "/tmp/tmpq3x9" |}.

(** The same world without the Docling library. *)
Definition env_without_docling : Env :=
  {| docling_importable := false;
     converter_init := fun _ => None;
     converter_convert := fun _ _ => inr (document_of "# Report");
     os_error := fun _ _ => None;
     mkdtemp_name := fun _ => "/tmp/tmpq3x9" |}.

(** A world in which the converter raises on every source. *)
Definition env_failing (msg : string) : Env :=
  {| docling_importable := true;
     converter_init := fun _ => None;
     converter_convert := fun _ _ => inl msg;
     os_error := fun _ _ => None;
     mkdtemp_name := fun _ => "/tmp/tmpq3x9" |}.

Definition upload (name : string) : Server.UploadFile :=
  {| Server.filename := Some name; Server.content := "%PDF-1.7" |}.

(** A world in which the constructor of the converter raises. *)
Definition env_broken_converter (msg : string) : Env :=
  {| docling_importable := true;
     converter_init := fun _ => Some msg;
     converter_convert := fun _ _ => inr (document_of "# Report");
     os_error := fun _ _ => None;
     mkdtemp_name := fun _ => "/tmp/tmpq3x9" |}.

(** A world in which no temporary directory can be created. *)
Definition env_refusing_mkdtemp (msg : string) : Env :=
  {| docling_importable := true;
     converter_init := fun _ => None;
     converter_convert := fun _ _ => inr (document_of "# Report");
     os_error := fun _ c => match c with
                            | SysMkdtemp => Some msg
                            | _ => None
                            end;
     mkdtemp_name := fun _ => "/tmp/tmpq3x9" |}.

(** A Docling document: no title, and [num_pages] is a method. *)
Definition docling_document_of (md : string) : Document :=
  {| export_to_markdown := inr md; title := None;
     num_pages := PyObject "method" |}.

(** Docling is installed, nothing is refused, every source converts to
    a Docling document with the Markdown text [md]. *)
Definition env_docling (md : string) : Env :=
  {| docling_importable := true;
     converter_init := fun _ => None;
     converter_convert := fun _ _ => inr (docling_document_of md);
     os_error := fun _ _ => None;
     mkdtemp_name := fun _ => "/tmp/tmpq3x9" |}.

(** No component of the path [p] is [".."]. *)
Definition no_parent_component (p : string) : bool :=
  forallb (fun part => negb (String.eqb part ".."))
          (Py.split_on OsPath.slash p).

(** A server state whose converter has been constructed. *)
Definition state_ready : State :=
  {| fs := ∅; converter := Some DocumentConverterInstance;
     convert_calls := []; stdout := [] |}.

(** ** Tactics: running a script symbolically *)

Ltac unfold_ops :=
  unfold Server.convert_body in *;
  unfold Server.get_converter, Server.file_read, Server.JSONResponse in *;
  unfold os_makedirs, open_w, file_write, mkdtemp, rmtree in *;
  unfold print, os_call, os_path_exists, new_DocumentConverter, convert,
    export, getitem, json_dumps in *;
  unfold try_finally, try_except, bind, ret, raise, modify, get_state in *.

Ltac run_step :=
  match goal with
  | |- context [match ?x with _ => _ end] =>
      lazymatch x with
      | context [match _ with _ => _ end] => fail
      | _ => destruct x eqn:?
      end
  end.

Ltac run_all := repeat (simpl; run_step); simpl.

(** ** The helpers compute as Python does *)

Example split_demo :
  Py.split ("  # Title" ++ newline ++ newline ++ "one  two" ++ newline)
  = ["#"; "Title"; "one"; "two"].
Proof. reflexivity. Qed.

Example suffix_demo :
  map OsPath.suffix ["report.pdf"; "a/b.tar.gz"; ".pdf"; "notes."; "dir.d/x"; "x.PDF/"]
  = [".pdf"; ".gz"; ""; ""; ""; ".PDF"].
Proof. reflexivity. Qed.

Example stem_demo :
  map OsPath.stem ["report.pdf"; "a/b.tar.gz"; ".pdf"; "/tmp/x/notes"]
  = ["report"; "b.tar"; ".pdf"; "notes"].
Proof. reflexivity. Qed.

Example dirname_demo :
  map OsPath.dirname ["out/a.md"; "a.md"; "/a.md"; "x//y/z"; "//a"]
  = ["out"; ""; "/"; "x//y"; "//"].
Proof. reflexivity. Qed.

Example join_demo :
  map (fun ab => OsPath.join (fst ab) (snd ab))
      [("/tmp/t1", "a.pdf"); ("/tmp/t1", "/etc/a.pdf"); ("out/", "a.md"); ("", "a.md")]
  = ["/tmp/t1/a.pdf"; "/etc/a.pdf"; "out/a.md"; "a.md"].
Proof. reflexivity. Qed.

Example lower_demo : Py.lower ".PdF" = ".pdf".
Proof. reflexivity. Qed.

Example cli_run_demo :
  Cli.run (env_converting_to sample_markdown)
    ["convert_document.py"; "report.pdf"] (state_with_file "report.pdf")
  = (0,
     {| fs := {[ "report.pdf" := File "%PDF-1.7" ]};
        converter := None;
        convert_calls := ["report.pdf"];
        stdout := [PrintJson (JObj
          [("success", JBool true);
           ("markdown", JStr sample_markdown);
           ("metadata", JObj [("title", JStr "report"); ("pages", JInt 1);
                              ("source_file", JStr "report.pdf")]);
           ("saved_path", JNull);
           ("character_count", JInt 20);
           ("word_count", JInt 4)])] |}).
Proof. vm_compute. reflexivity. Qed.

Example upper_case_upload_demo :
  OsPath.suffix "REPORT.PDF" = ".PDF"
  /\ Server.respond
       (Server.convert_document (env_converting_to "# Report")
          (upload "REPORT.PDF") (Some "out") None) empty_state
     = ({| Server.status := 200;
           Server.body := JObj
             [("success", JBool true);
              ("markdown", JStr "# Report");
              ("metadata", JObj [("title", JStr "REPORT"); ("pages", JInt 1);
                                 ("source_file", JStr "REPORT.PDF")]);
              ("saved_path", JStr "out/REPORT.md");
              ("character_count", JInt 8);
              ("word_count", JInt 2)] |},
        {| fs := {[ "out" := Dir; "out/REPORT.md" := File "# Report" ]};
           converter := Some DocumentConverterInstance;
           convert_calls := ["/tmp/tmpq3x9/REPORT.PDF"];
           stdout := [PrintText "Initializing Docling converter...";
                      PrintText "Docling converter ready!"] |}).
Proof. split; vm_compute; reflexivity. Qed.

Example failing_upload_demo :
  Server.respond
    (Server.convert_document (env_failing "corrupt file")
       (upload "report.pdf") None None) empty_state
  = ({| Server.status := 500;
        Server.body := JObj [("detail", JStr "Conversion failed: corrupt file")] |},
     {| fs := ∅;
        converter := Some DocumentConverterInstance;
        convert_calls := ["/tmp/tmpq3x9/report.pdf"];
        stdout := [PrintText "Initializing Docling converter...";
                   PrintText "Docling converter ready!"] |}).
Proof. vm_compute. reflexivity. Qed.

Example usage_demo :
  Cli.run (env_converting_to "# Report") ["convert_document.py"] empty_state
  = (1,
     {| fs := ∅; converter := None; convert_calls := [];
        stdout := [PrintJson (JObj
          [("success", JBool false);
           ("error",
            JStr "Usage: python convert_document.py <input_file> [output_file]")])] |}).
Proof. vm_compute. reflexivity. Qed.

(** ** Helper lemmas *)

Lemma prefix_refl (s : string) : String.prefix s s = true.
Proof.
  induction s as [|c s IH]; simpl; [reflexivity|].
  destruct (ascii_dec c c); [exact IH | congruence].
Qed.

Lemma contains_self (s : string) : contains s s = true.
Proof. destruct s; cbn [contains]; rewrite prefix_refl; reflexivity. Qed.

(** A text contains each of its endings. *)
Lemma contains_suffix (pre s : string) : contains s (pre ++ s) = true.
Proof.
  induction pre as [|c pre IH].
  - apply contains_self.
  - change (String c pre ++ s) with (String c (pre ++ s)).
    cbn [contains]. rewrite IH. apply orb_true_r.
Qed.

Lemma under_self (d : string) : under d d = true.
Proof. unfold under. rewrite String.eqb_refl. reflexivity. Qed.

(** After [remove_tree d] nothing exists at [d] or below. *)
Lemma remove_tree_lookup (d p : string) (m : gmap string node) :
  under d p = true -> remove_tree d m !! p = None.
Proof.
  intros Hu. unfold remove_tree.
  apply map_lookup_filter_None. right. intros x _. simpl. congruence.
Qed.

(** The [finally] clause of [/convert] decides the final file system. *)
Lemma try_finally_rmtree {A} (m : M A) (d : string) (s : State) :
  fs (snd (try_finally m (rmtree d) s)) = remove_tree d (fs (snd (m s)))
  /\ fst (try_finally m (rmtree d) s) = fst (m s).
Proof.
  unfold try_finally, rmtree, modify. destruct (m s) as [o s1]. simpl. auto.
Qed.

Lemma py_in_In (x : string) (l : list string) :
  Server.py_in x l = true <-> In x l.
Proof.
  unfold Server.py_in. rewrite existsb_exists. split.
  - intros [y [Hy He]]. apply String.eqb_eq in He. subst. exact Hy.
  - intros H. exists x. split; [exact H | apply String.eqb_refl].
Qed.

Lemma py_in_not_In (x : string) (l : list string) :
  Server.py_in x l = false <-> ~ In x l.
Proof.
  rewrite <- py_in_In. destruct (Server.py_in x l); split; congruence.
Qed.

(** What the command-line [convert_document] can return. *)
Lemma cli_convert_document_total env ip op s :
  exists d, fst (Cli.convert_document env ip op s) = Return d.
Proof.
  unfold Cli.convert_document. unfold_ops. run_all; eauto.
Qed.

Lemma cli_convert_document_shape env ip op s :
  exists d, fst (Cli.convert_document env ip op s) = Return d
            /\ (success_shape env d \/ failure_shape d).
Proof.
  unfold Cli.convert_document, success_shape, failure_shape, exported.
  unfold_ops. run_all; eauto 20.
Qed.

Lemma server_convert_upload_shape env file fname op fn s :
  (exists d, fst (Server.convert_upload env file fname op fn s) = Return (JObj d)
             /\ success_shape env d)
  \/ (exists e, fst (Server.convert_upload env file fname op fn s) = Raise e).
Proof.
  unfold Server.convert_upload, success_shape, exported.
  unfold_ops. run_all; eauto 20.
Qed.

Lemma server_convert_document_shape env file op fn s :
  (exists d, fst (Server.convert_document env file op fn s) = Return (JObj d)
             /\ success_shape env d)
  \/ (exists e, fst (Server.convert_document env file op fn s) = Raise e).
Proof.
  unfold Server.convert_document.
  destruct (Server.filename file) as [fname|]; [|right; eexists; reflexivity].
  destruct (negb (Py.truthy fname)); [right; eexists; reflexivity|].
  destruct (negb (Server.py_in _ _)); [right; eexists; reflexivity|].
  apply server_convert_upload_shape.
Qed.

Lemma server_convert_from_url_shape env url op fn s :
  (exists d, fst (Server.convert_from_url env url op fn s) = Return (JObj d)
             /\ success_shape env d)
  \/ (exists e, fst (Server.convert_from_url env url op fn s) = Raise e).
Proof.
  unfold Server.convert_from_url, success_shape, exported.
  unfold_ops. run_all; eauto 20.
Qed.

(** Every result an adapter produces has one of the two shapes. *)
Lemma produced_shape env d :
  produced env d -> success_shape env d \/ failure_shape d.
Proof.
  intros [ip op s d' H | file op fn s d' H | url op fn s d' H].
  - destruct (cli_convert_document_shape env ip op s) as [d0 [E Hd]].
    rewrite E in H. injection H as <-. exact Hd.
  - destruct (server_convert_document_shape env file op fn s)
      as [[d0 [E Hd]] | [e E]]; rewrite E in H; [|discriminate].
    injection H as <-. left. exact Hd.
  - destruct (server_convert_from_url_shape env url op fn s)
      as [[d0 [E Hd]] | [e E]]; rewrite E in H; [|discriminate].
    injection H as <-. left. exact Hd.
Qed.

(** How [convert_upload] can end: a JSON body, the 500 raised by its
    [except] clause, or the exception of a refused [mkdtemp]. *)
Lemma server_convert_upload_status env file fname op fn s :
  (exists b, fst (Server.convert_upload env file fname op fn s) = Return b)
  \/ (exists msg, fst (Server.convert_upload env file fname op fn s)
                  = Raise (HTTPException 500 msg))
  \/ (exists msg, fst (Server.convert_upload env file fname op fn s)
                  = Raise (Exception msg)).
Proof.
  unfold Server.convert_upload.
  unfold_ops. run_all; eauto 10.
Qed.

Lemma success_shape_is_success env d : success_shape env d -> is_success d = true.
Proof.
  intros [md [_ [Hs _]]]. unfold is_success. rewrite Hs. reflexivity.
Qed.

Lemma failure_shape_is_success d : failure_shape d -> is_success d = false.
Proof. intros [msg ->]. reflexivity. Qed.

(** The command-line [convert_document] prints nothing itself. *)
Lemma cli_convert_document_stdout env ip op s :
  stdout (snd (Cli.convert_document env ip op s)) = stdout s.
Proof.
  unfold Cli.convert_document. unfold_ops. run_all; reflexivity.
Qed.

(** An upload that passes the two checks of [/convert] is handled by
    [convert_upload]. *)
Lemma server_convert_document_accepted env file fname op fn :
  Server.filename file = Some fname ->
  In (extension_of fname) Server.supported_extensions ->
  Server.convert_document env file op fn
  = Server.convert_upload env file fname op fn.
Proof.
  intros Hf Hin. unfold Server.convert_document. rewrite Hf.
  assert (Ht : Py.truthy fname = true).
  { destruct fname; [|reflexivity].
    vm_compute in Hin. intuition discriminate. }
  apply py_in_In in Hin. unfold extension_of in Hin.
  cbv zeta. rewrite Ht, Hin. reflexivity.
Qed.

(** ** The claims *)

(** C1.  Every ConversionResult produced by either adapter (the
    command-line [convert_document], the handlers of [/convert] and
    [/convert-url]) has exactly one of [markdown] and [error]: [markdown]
    and no [error] when [success] is true, [error] and no [markdown] when
    [success] is false. *)
Theorem conversion_result_markdown_xor_error (env : Env) (d : dict) :
  produced env d -> exactly_one_of_markdown_error d.
Proof.
  intros H. destruct (produced_shape env d H) as [Hs | [msg ->]].
  - destruct Hs as [md [_ [Hs [Hm [He _]]]]]. left.
    unfold has_key. rewrite Hm. auto.
  - right. repeat split; reflexivity.
Qed.

Lemma conversion_result_markdown_xor_error_witness :
  exactly_one_of_markdown_error
    [("success", JBool false); ("error", JStr "File not found: missing.pdf")].
Proof.
  apply (conversion_result_markdown_xor_error (env_converting_to "# Report")).
  apply (produced_by_cli _ "missing.pdf" None empty_state).
  vm_compute. reflexivity.
Defined.

(** C2.  For a [POST /convert] request that passes validation and for
    which [mkdtemp] creates a directory, neither that directory nor
    anything below it exists when the handler is done, whatever the
    saving, the conversion and the persisting of the output did. *)
Theorem convert_temp_dir_removed (env : Env) (file : Server.UploadFile)
        (fname : string) (output_path filename : option string) (s : State) :
  Server.filename file = Some fname ->
  In (extension_of fname) Server.supported_extensions ->
  os_error env s SysMkdtemp = None ->
  let temp_dir := mkdtemp_name env s in
  let s' := snd (Server.convert_document env file output_path filename s) in
  fs s' !! temp_dir = None
  /\ forall p, under temp_dir p = true -> fs s' !! p = None.
Proof.
  intros Hf Hin Hmk temp_dir s'.
  assert (Hall : forall p, under temp_dir p = true -> fs s' !! p = None).
  { intros p Hp. subst s'.
    rewrite (server_convert_document_accepted env file fname) by assumption.
    unfold Server.convert_upload.
    unfold bind at 1. unfold mkdtemp.
    unfold bind at 1. unfold os_call. rewrite Hmk.
    unfold bind at 1. unfold get_state.
    unfold bind at 1. unfold modify. unfold ret at 1.
    fold temp_dir.
    match goal with
    | |- fs (snd (try_finally ?m (rmtree ?d) ?s1)) !! p = None =>
        destruct (try_finally_rmtree m d s1) as [-> _]
    end.
    apply remove_tree_lookup. exact Hp. }
  split; [apply Hall, under_self | exact Hall].
Qed.

Lemma convert_temp_dir_removed_witness :
  fs (snd (Server.convert_document (env_failing "corrupt file")
             (upload "report.pdf") None None empty_state))
  !! "/tmp/tmpq3x9" = None.
Proof.
  refine (proj1 (convert_temp_dir_removed (env_failing "corrupt file")
                   (upload "report.pdf") "report.pdf" None None empty_state
                   _ _ _)).
  - reflexivity.
  - vm_compute. auto.
  - reflexivity.
Defined.

(** C3.  A [POST /convert] request whose upload has no filename, or whose
    extension (the handler's [ext], the lower-cased suffix of the
    filename) is not in the allow-list, is answered with status 400, and
    the handler leaves the state as it was: no conversion call, no
    converter constructed, no temporary directory. *)
Theorem convert_rejects_unsupported (env : Env) (file : Server.UploadFile)
        (output_path filename : option string) (s : State) :
  (Server.filename file = None
   \/ Server.filename file = Some ""
   \/ exists fname, Server.filename file = Some fname
                    /\ ~ In (extension_of fname) Server.supported_extensions) ->
  let r := Server.respond
             (Server.convert_document env file output_path filename) s in
  Server.status (fst r) = 400
  /\ convert_calls (snd r) = convert_calls s
  /\ snd r = s.
Proof.
  unfold Server.respond, Server.convert_document.
  intros [-> | [-> | [fname [-> Hnot]]]]; cbv zeta.
  - auto.
  - auto.
  - destruct (negb (Py.truthy fname)); [auto|].
    apply py_in_not_In in Hnot. unfold extension_of in Hnot.
    rewrite Hnot. auto.
Qed.

Lemma convert_rejects_unsupported_witness :
  Server.status
    (fst (Server.respond
            (Server.convert_document (env_converting_to "# Notes")
               (upload "notes.txt") None None) empty_state)) = 400.
Proof.
  refine (proj1 (convert_rejects_unsupported (env_converting_to "# Notes")
                   (upload "notes.txt") None None empty_state _)).
  right. right. exists "notes.txt". split; [reflexivity|].
  vm_compute. intuition discriminate.
Defined.

(** C4, as the specification states it: for every input path that does
    not exist, the command-line [convert_document] returns a failure
    whose message contains the path.  It fails when the Docling library
    is not installed: the import is tried first. *)
Lemma missing_file_without_docling :
  fs empty_state !! "missing.pdf" = None
  /\ fst (Cli.convert_document env_without_docling "missing.pdf" None empty_state)
     = Return [("success", JBool false);
               ("error", JStr "Docling not installed. Run: pip install docling")]
  /\ contains "missing.pdf" "Docling not installed. Run: pip install docling"
     = false.
Proof. split; [apply lookup_empty | split; reflexivity]. Qed.

(** C4, amended.  When the Docling library can be imported, for every
    input path that does not exist the command-line [convert_document]
    returns the failure "File not found: <path>", whose message contains
    the path, and changes nothing. *)
Theorem cli_missing_file_not_found (env : Env) (input_path : string)
        (output_path : option string) (s : State) :
  docling_importable env = true ->
  fs s !! input_path = None ->
  exists msg,
    Cli.convert_document env input_path output_path s
    = (Return [("success", JBool false); ("error", JStr msg)], s)
    /\ msg = "File not found: " ++ input_path
    /\ contains input_path msg = true.
Proof.
  intros Himp Hnone. exists ("File not found: " ++ input_path).
  split; [|split; [reflexivity | apply contains_suffix]].
  unfold Cli.convert_document. rewrite Himp.
  unfold bind, os_path_exists. cbn [negb]. cbv beta iota. rewrite Hnone.
  rewrite bool_decide_eq_false_2 by (intros [x Hx]; discriminate).
  reflexivity.
Qed.

Lemma cli_missing_file_not_found_witness :
  exists msg,
    Cli.convert_document (env_converting_to "# Report") "missing.pdf" None
      empty_state
    = (Return [("success", JBool false); ("error", JStr msg)], empty_state)
    /\ msg = "File not found: missing.pdf"
    /\ contains "missing.pdf" msg = true.
Proof.
  apply (cli_missing_file_not_found (env_converting_to "# Report")
           "missing.pdf" None empty_state).
  - reflexivity.
  - apply lookup_empty.
Defined.

(** C5.  For every successful result produced by the command-line
    adapter or by the handlers of [/convert] and [/convert-url],
    [character_count] is the length of the [markdown] text and
    [word_count] the number of pieces of that text split on white space. *)
Theorem successful_result_counts (env : Env) (d : dict) :
  produced env d -> is_success d = true -> counts_match d.
Proof.
  intros H Hok. destruct (produced_shape env d H) as [Hs | Hf].
  - destruct Hs as [md [_ [_ [Hm [_ [Hc Hw]]]]]]. exists md. auto.
  - apply failure_shape_is_success in Hf. congruence.
Qed.

Lemma successful_result_counts_witness :
  counts_match
    [("success", JBool true);
     ("markdown", JStr sample_markdown);
     ("metadata", JObj [("title", JStr "report"); ("pages", JInt 1);
                        ("source_file", JStr "report.pdf")]);
     ("saved_path", JStr "out/report.md");
     ("character_count", JInt 20);
     ("word_count", JInt 4)].
Proof.
  apply (successful_result_counts (env_converting_to sample_markdown)).
  - apply (produced_by_convert _ (upload "report.pdf") (Some "out") None
             empty_state).
    vm_compute. reflexivity.
  - reflexivity.
Defined.

(** C6, as the specification states it: whenever a result has [success]
    true its [markdown] is non-empty.  It fails for a document the
    converter exports as the empty text: the adapters pass it on. *)
Lemma blank_document_empty_markdown :
  fst (Cli.convert_document (env_converting_to "") "blank.pdf" None
         (state_with_file "blank.pdf"))
  = Return [("success", JBool true);
            ("markdown", JStr "");
            ("metadata", JObj [("title", JStr "blank"); ("pages", JInt 1);
                               ("source_file", JStr "blank.pdf")]);
            ("saved_path", JNull);
            ("character_count", JInt 0);
            ("word_count", JInt 0)].
Proof. vm_compute. reflexivity. Qed.

(** C6, amended.  Whenever a conversion result has [success] true, its
    [markdown] field is a text, namely the Markdown the external
    converter exported for that very input, unchanged: for the
    command-line adapter the document converted from the input path, for
    [/convert-url] the one converted from the URL, for [/convert] the
    one converted from the temporary copy holding the uploaded bytes.
    So the field is non-empty exactly when that export is. *)
Theorem successful_result_markdown_is_export (env : Env) (s : State) (d : dict)
        (input_path url : string) (file : Server.UploadFile) (fname : string)
        (output_path filename : option string) :
  is_success d = true ->
  (fst (Cli.convert_document env input_path output_path s) = Return d ->
   exists doc md,
     converter_convert env s input_path = inr doc
     /\ export_to_markdown doc = inr md
     /\ dict_get "markdown" d = Some (JStr md))
  /\ (fst (Server.convert_from_url env url output_path filename s)
      = Return (JObj d) ->
      exists s1 doc md,
        converter_convert env s1 url = inr doc
        /\ export_to_markdown doc = inr md
        /\ dict_get "markdown" d = Some (JStr md)
        /\ fs s1 = fs s /\ convert_calls s1 = convert_calls s)
  /\ (Server.filename file = Some fname ->
      fst (Server.convert_document env file output_path filename s)
      = Return (JObj d) ->
      exists s1 doc md,
        converter_convert env s1 (OsPath.join (mkdtemp_name env s) fname)
        = inr doc
        /\ export_to_markdown doc = inr md
        /\ dict_get "markdown" d = Some (JStr md)
        /\ fs s1 !! OsPath.join (mkdtemp_name env s) fname
           = Some (File (Server.content file))
        /\ convert_calls s1 = convert_calls s).
Proof.
  intros Hok. split; [|split].
  - revert Hok. unfold Cli.convert_document. unfold_ops.
    run_all; intros Hok H; injection H as <-; try discriminate Hok.
    all: do 2 eexists; (split; [reflexivity|]); (split; [eassumption|]).
    all: reflexivity.
  - clear Hok. unfold Server.convert_from_url. unfold_ops.
    run_all; intros H; try discriminate H; injection H as <-.
    all: do 3 eexists; (split; [eassumption|]); (split; [eassumption|]).
    all: repeat split.
  - clear Hok. intros Hf. unfold Server.convert_document. rewrite Hf.
    destruct (negb (Py.truthy fname)); [discriminate|].
    cbv zeta. destruct (negb (Server.py_in _ _)); [discriminate|].
    unfold Server.convert_upload. unfold_ops.
    run_all; intros H; try discriminate H; injection H as <-.
    all: do 3 eexists; (split; [eassumption|]); (split; [eassumption|]).
    all: split; [reflexivity|]; split; [|reflexivity].
    all: simpl; apply lookup_insert_eq.
Qed.

Lemma successful_result_markdown_is_export_witness :
  exists doc md,
    converter_convert (env_converting_to "# Report")
      (state_with_file "report.pdf") "report.pdf" = inr doc
    /\ export_to_markdown doc = inr md
    /\ dict_get "markdown"
         [("success", JBool true);
          ("markdown", JStr "# Report");
          ("metadata", JObj [("title", JStr "report"); ("pages", JInt 1);
                             ("source_file", JStr "report.pdf")]);
          ("saved_path", JNull);
          ("character_count", JInt 8);
          ("word_count", JInt 2)] = Some (JStr md).
Proof.
  apply (proj1 (successful_result_markdown_is_export
                  (env_converting_to "# Report") (state_with_file "report.pdf")
                  [("success", JBool true);
                   ("markdown", JStr "# Report");
                   ("metadata", JObj [("title", JStr "report");
                                      ("pages", JInt 1);
                                      ("source_file", JStr "report.pdf")]);
                   ("saved_path", JNull);
                   ("character_count", JInt 8);
                   ("word_count", JInt 2)]
                  "report.pdf" "" (upload "report.pdf") "report.pdf"
                  None None eq_refl)).
  vm_compute. reflexivity.
Defined.

(** C7.  [GET /health] is answered with status 200 and the body
    [{"status": "healthy", "docling": true}] in every state of the server,
    the converter constructed or not, and leaves the state as it was. *)
Theorem health_always_healthy (s : State) :
  Server.respond Server.health s
  = ({| Server.status := 200;
        Server.body := JObj [("status", JStr "healthy");
                             ("docling", JBool true)] |}, s).
Proof. reflexivity. Qed.

(** What the command-line [convert_document] returns is serialisable
    when the page counts of the converter are. *)
Lemma cli_result_serialisable env ip op s :
  (forall s1 source doc,
      converter_convert env s1 source = inr doc ->
      json_dumps_error (num_pages doc) = None) ->
  exists d, fst (Cli.convert_document env ip op s) = Return d
            /\ json_dumps_error (JObj d) = None.
Proof.
  intros Hser. unfold Cli.convert_document. unfold_ops.
  run_all; eexists; (split; [reflexivity|]); simpl; try reflexivity.
  all: match goal with
       | H : converter_convert _ _ _ = inr ?doc |- _ =>
           rewrite (Hser _ _ _ H)
       end.
  all: match goal with
       | |- context [json_of_opt_str ?o] => destruct o; reflexivity
       | _ => reflexivity
       end.
Qed.

(** C8.  The specification has every run of the command-line script
    print exactly one JSON object and exit with 0 when its [success] is
    true.  The script misses this when [json.dumps] refuses the result:
    [metadata.pages] is whatever [getattr(doc, 'num_pages', None)]
    returned, and the [json.dumps] of the [__main__] block stands outside
    any [try].  Then the conversion has succeeded, yet nothing is
    printed and the exit status is 1. *)
Theorem cli_unserialisable_result_prints_nothing (env : Env)
        (argv : list string) (s : State) (d : dict) (msg : string) :
  (2 <= List.length argv)%nat ->
  let input_file := nth 1 argv "" in
  let output_file :=
    if (2 <? List.length argv)%nat then Some (nth 2 argv "") else None in
  fst (Cli.convert_document env input_file output_file s) = Return d ->
  json_dumps_error (JObj d) = Some msg ->
  fst (Cli.run env argv s) = 1
  /\ stdout (snd (Cli.run env argv s)) = stdout s.
Proof.
  intros Hlen input_file output_file Hd Herr.
  unfold Cli.run, Cli.main.
  apply Nat.ltb_ge in Hlen. rewrite Hlen. fold input_file output_file.
  pose proof (cli_convert_document_stdout env input_file output_file s) as Hout.
  unfold bind.
  destruct (Cli.convert_document env input_file output_file s) as [o s1].
  simpl in Hd, Hout. subst o.
  unfold json_dumps. rewrite Herr. unfold raise. simpl. auto.
Qed.

Lemma cli_unserialisable_result_prints_nothing_witness :
  is_success
    [("success", JBool true);
     ("markdown", JStr "# Report");
     ("metadata", JObj [("title", JStr "report");
                        ("pages", PyObject "method");
                        ("source_file", JStr "report.pdf")]);
     ("saved_path", JNull);
     ("character_count", JInt 8);
     ("word_count", JInt 2)] = true
  /\ fst (Cli.run (env_docling "# Report")
            ["convert_document.py"; "report.pdf"]
            (state_with_file "report.pdf")) = 1
  /\ stdout (snd (Cli.run (env_docling "# Report")
                    ["convert_document.py"; "report.pdf"]
                    (state_with_file "report.pdf")))
     = stdout (state_with_file "report.pdf").
Proof.
  split; [reflexivity|].
  apply (cli_unserialisable_result_prints_nothing (env_docling "# Report")
           ["convert_document.py"; "report.pdf"] (state_with_file "report.pdf")
           [("success", JBool true);
            ("markdown", JStr "# Report");
            ("metadata", JObj [("title", JStr "report");
                               ("pages", PyObject "method");
                               ("source_file", JStr "report.pdf")]);
            ("saved_path", JNull);
            ("character_count", JInt 8);
            ("word_count", JInt 2)]
           "Object of type method is not JSON serializable").
  - simpl. lia.
  - vm_compute. reflexivity.
  - reflexivity.
Defined.

(** C9.  The validation of [/convert] ignores letter case: the suffix of
    the uploaded filename is lower-cased before it is looked up in the
    allow-list, so an upload whose suffix becomes a supported extension
    when lower-cased (".PDF", ".Docx") passes it; the answer is then 200
    or 500, never the 400 of a refused upload. *)
Theorem convert_extension_case_insensitive (env : Env)
        (file : Server.UploadFile) (fname : string)
        (output_path filename : option string) (s : State) :
  Server.filename file = Some fname ->
  In (Py.lower (OsPath.suffix fname)) Server.supported_extensions ->
  let r := Server.respond
             (Server.convert_document env file output_path filename) s in
  Server.status (fst r) = 200 \/ Server.status (fst r) = 500.
Proof.
  intros Hf Hin r. subst r. unfold Server.respond.
  rewrite (server_convert_document_accepted env file fname) by assumption.
  destruct (server_convert_upload_status env file fname output_path filename s)
    as [[b E] | [[msg E] | [msg E]]].
  all: destruct (Server.convert_upload env file fname output_path filename s)
         as [o s1]; simpl in E; subst o; simpl; auto.
Qed.

Lemma convert_extension_case_insensitive_witness :
  let r := Server.respond
             (Server.convert_document (env_converting_to sample_markdown)
                (upload "REPORT.PDF") None None) empty_state in
  Server.status (fst r) = 200 \/ Server.status (fst r) = 500.
Proof.
  apply (convert_extension_case_insensitive (env_converting_to sample_markdown)
           (upload "REPORT.PDF") "REPORT.PDF" None None empty_state).
  - reflexivity.
  - vm_compute. auto.
Defined.

(** C10.  In the command-line [convert_document] the import of the
    Docling library is tried before the input path is looked at: when the
    library cannot be loaded the result is the failure "Docling not
    installed. Run: pip install docling" for every input path, existing
    or not, and nothing else happens. *)
Theorem cli_import_check_first (env : Env) (input_path : string)
        (output_path : option string) (s : State) :
  docling_importable env = false ->
  Cli.convert_document env input_path output_path s
  = (Return [("success", JBool false);
             ("error", JStr "Docling not installed. Run: pip install docling")],
     s).
Proof.
  intros Himp. unfold Cli.convert_document. rewrite Himp. reflexivity.
Qed.

Lemma cli_import_check_first_witness :
  fs empty_state !! "missing.pdf" = None
  /\ Cli.convert_document env_without_docling "missing.pdf" None empty_state
     = (Return [("success", JBool false);
                ("error", JStr "Docling not installed. Run: pip install docling")],
        empty_state).
Proof.
  split; [apply lookup_empty|].
  apply (cli_import_check_first env_without_docling "missing.pdf" None
           empty_state).
  reflexivity.
Defined.

(** ** Further properties of the scripts *)

(** *** The lazy converter of the server *)

(** X1.  [get_converter] is a lazy singleton: once a call has returned a
    converter, the next call returns the same one and changes nothing
    (no second construction, nothing printed). *)
Theorem get_converter_reused (env : Env) (s s1 : State) (c : DocumentConverter) :
  Server.get_converter env s = (Return c, s1) ->
  converter s1 = Some c
  /\ Server.get_converter env s1 = (Return c, s1).
Proof.
  unfold Server.get_converter, get_state, bind.
  destruct (converter s) as [c0|] eqn:Hc.
  - unfold ret. intros H. injection H as -> ->. rewrite Hc. auto.
  - unfold print, modify, new_DocumentConverter, ret.
    destruct (converter_init env _); [discriminate|].
    intros H. injection H as <- <-. simpl. auto.
Qed.

Lemma get_converter_reused_witness :
  let s1 := {| fs := ∅; converter := Some DocumentConverterInstance;
               convert_calls := [];
               stdout := [PrintText "Initializing Docling converter...";
                          PrintText "Docling converter ready!"] |} in
  converter s1 = Some DocumentConverterInstance
  /\ Server.get_converter (env_converting_to "# Report") s1
     = (Return DocumentConverterInstance, s1).
Proof.
  apply (get_converter_reused (env_converting_to "# Report") empty_state).
  reflexivity.
Defined.

(** X2.  A failed construction is not cached: when the constructor of
    the converter raises during [/convert-url], the answer is 500 with
    the message of the exception, no conversion is attempted, and the
    global stays unset, so that the next request constructs again. *)
Theorem convert_url_init_failure_not_cached (env : Env) (url : string)
        (output_path filename : option string) (s : State) (msg : string) :
  converter s = None ->
  converter_init env
    (log_print (PrintText "Initializing Docling converter...") s) = Some msg ->
  let r := Server.respond
             (Server.convert_from_url env url output_path filename) s in
  fst r = {| Server.status := 500;
             Server.body := JObj [("detail",
                                   JStr ("Conversion failed: " ++ msg))] |}
  /\ converter (snd r) = None
  /\ convert_calls (snd r) = convert_calls s
  /\ fs (snd r) = fs s.
Proof.
  intros Hc Hinit. cbv zeta.
  unfold Server.respond, Server.convert_from_url, Server.get_converter.
  unfold try_except, bind, get_state. rewrite Hc.
  unfold print, modify, new_DocumentConverter. rewrite Hinit.
  simpl. auto.
Qed.

Lemma convert_url_init_failure_not_cached_witness :
  let r := Server.respond
             (Server.convert_from_url (env_broken_converter "out of memory")
                "https://example.org/r.pdf" None None) empty_state in
  fst r = {| Server.status := 500;
             Server.body := JObj [("detail",
                                   JStr "Conversion failed: out of memory")] |}
  /\ converter (snd r) = None
  /\ convert_calls (snd r) = convert_calls empty_state
  /\ fs (snd r) = fs empty_state.
Proof.
  apply (convert_url_init_failure_not_cached (env_broken_converter "out of memory")
           "https://example.org/r.pdf" None None empty_state "out of memory");
    reflexivity.
Defined.

Lemma server_convert_upload_keeps_converter env file fname op fn s c :
  converter s = Some c ->
  converter (snd (Server.convert_upload env file fname op fn s)) = Some c
  /\ stdout (snd (Server.convert_upload env file fname op fn s)) = stdout s.
Proof.
  intros Hc. unfold Server.convert_upload. unfold_ops.
  repeat (simpl; rewrite ?Hc; run_step); simpl; auto.
Qed.

Lemma server_convert_from_url_keeps_converter env url op fn s c :
  converter s = Some c ->
  converter (snd (Server.convert_from_url env url op fn s)) = Some c
  /\ stdout (snd (Server.convert_from_url env url op fn s)) = stdout s.
Proof.
  intros Hc. unfold Server.convert_from_url. unfold_ops.
  repeat (simpl; rewrite ?Hc; run_step); simpl; auto.
Qed.

(** X3.  Once the converter has been constructed, every handler keeps it
    and none announces a new initialisation: after [/convert],
    [/convert-url], [/] and [/health] the global holds the same
    converter and nothing was printed. *)
Theorem handlers_keep_converter (env : Env) (s : State) (c : DocumentConverter)
        (file : Server.UploadFile) (url : string)
        (output_path filename : option string) (handler : M json) :
  converter s = Some c ->
  In handler [Server.convert_document env file output_path filename;
              Server.convert_from_url env url output_path filename;
              Server.root; Server.health] ->
  converter (snd (handler s)) = Some c
  /\ stdout (snd (handler s)) = stdout s.
Proof.
  intros Hc [<- | [<- | [<- | [<- | []]]]].
  - unfold Server.convert_document.
    destruct (Server.filename file) as [fname|]; [|auto].
    destruct (negb (Py.truthy fname)); [auto|].
    cbv zeta. destruct (negb (Server.py_in _ _)); [auto|].
    apply server_convert_upload_keeps_converter. exact Hc.
  - apply server_convert_from_url_keeps_converter. exact Hc.
  - auto.
  - auto.
Qed.

Lemma handlers_keep_converter_witness :
  converter (snd (Server.convert_document (env_failing "corrupt file")
                    (upload "report.pdf") None None state_ready))
  = Some DocumentConverterInstance
  /\ stdout (snd (Server.convert_document (env_failing "corrupt file")
                    (upload "report.pdf") None None state_ready))
     = stdout state_ready.
Proof.
  apply (handlers_keep_converter (env_failing "corrupt file") state_ready
           DocumentConverterInstance (upload "report.pdf") "" None None).
  - reflexivity.
  - left. reflexivity.
Defined.

(** *** Failures of the handlers *)

(** X4.  [/convert-url] validates nothing: for every URL the answer is
    200, or 500 with the detail "Conversion failed: " followed by the
    message of the exception; it is never a 400. *)
Theorem convert_url_status (env : Env) (url : string)
        (output_path filename : option string) (s : State) :
  let r := fst (Server.respond
                  (Server.convert_from_url env url output_path filename) s) in
  Server.status r = 200
  \/ exists msg,
       r = {| Server.status := 500;
              Server.body := JObj [("detail",
                                    JStr ("Conversion failed: " ++ msg))] |}.
Proof.
  cbv zeta. unfold Server.respond, Server.convert_from_url. unfold_ops.
  run_all; eauto.
Qed.

(** The [try] block of [/convert] raises plain exceptions only. *)
Lemma server_convert_body_raises env file fname op fn temp_dir s e :
  fst (Server.convert_body env file fname op fn temp_dir s) = Raise e ->
  exists msg, e = Exception msg.
Proof.
  unfold_ops. run_all; intros H; try discriminate H; injection H as <-; eauto.
Qed.

(** [/convert] once [mkdtemp] has made the directory. *)
Lemma server_convert_upload_after_mkdtemp env file fname op fn s :
  os_error env s SysMkdtemp = None ->
  Server.convert_upload env file fname op fn s
  = try_finally
      (try_except
         (Server.convert_body env file fname op fn (mkdtemp_name env s))
         (fun e => raise (HTTPException 500 ("Conversion failed: " ++ str e))))
      (rmtree (mkdtemp_name env s))
      (set_fs (fun m => <[mkdtemp_name env s := Dir]> m) s).
Proof.
  intros Hmk. unfold Server.convert_upload.
  unfold bind at 1. unfold mkdtemp.
  unfold bind at 1. unfold os_call. rewrite Hmk.
  unfold bind at 1. unfold get_state.
  unfold bind at 1. unfold modify. unfold ret at 1.
  reflexivity.
Qed.

(** X5.  Once [/convert] has its temporary directory, the answer is
    decided by the [try] block alone: when the block returns a body the
    answer is 200 with that body, and when it raises (saving the upload,
    constructing the converter, converting, exporting, persisting the
    output, rendering the response) the answer is 500 with the detail
    "Conversion failed: " followed by the message of that exception. *)
Theorem convert_failures_are_500 (env : Env) (file : Server.UploadFile)
        (fname : string) (output_path filename : option string) (s : State) :
  Server.filename file = Some fname ->
  In (extension_of fname) Server.supported_extensions ->
  os_error env s SysMkdtemp = None ->
  let temp_dir := mkdtemp_name env s in
  let s1 := set_fs (fun m => <[temp_dir := Dir]> m) s in
  let r := fst (Server.respond
                  (Server.convert_document env file output_path filename) s) in
  match fst (Server.convert_body env file fname output_path filename
               temp_dir s1) with
  | Return b => r = {| Server.status := 200; Server.body := b |}
  | Raise e =>
      exists msg,
        e = Exception msg
        /\ r = {| Server.status := 500;
                  Server.body := JObj [("detail",
                                        JStr ("Conversion failed: " ++ msg))] |}
  end.
Proof.
  intros Hf Hin Hmk. cbv zeta.
  rewrite (server_convert_document_accepted env file fname) by assumption.
  unfold Server.respond.
  rewrite (server_convert_upload_after_mkdtemp env file fname) by exact Hmk.
  unfold try_finally, try_except, rmtree, modify, raise.
  pose proof (server_convert_body_raises env file fname output_path filename
                (mkdtemp_name env s)
                (set_fs (fun m => <[mkdtemp_name env s := Dir]> m) s)) as Hraise.
  destruct (Server.convert_body env file fname output_path filename
              (mkdtemp_name env s)
              (set_fs (fun m => <[mkdtemp_name env s := Dir]> m) s))
    as [[b | e] s2]; simpl.
  - reflexivity.
  - destruct (Hraise e eq_refl) as [msg ->]. simpl. eauto.
Qed.

Lemma convert_failures_are_500_witness :
  fst (Server.convert_body (env_failing "corrupt file") (upload "report.pdf")
         "report.pdf" None None "/tmp/tmpq3x9"
         (set_fs (fun m => <["/tmp/tmpq3x9" := Dir]> m) empty_state))
  = Raise (Exception "corrupt file")
  /\ fst (Server.respond
            (Server.convert_document (env_failing "corrupt file")
               (upload "report.pdf") None None) empty_state)
     = {| Server.status := 500;
          Server.body := JObj [("detail",
                                JStr "Conversion failed: corrupt file")] |}.
Proof.
  split; [vm_compute; reflexivity|].
  pose proof (convert_failures_are_500 (env_failing "corrupt file")
                (upload "report.pdf") "report.pdf" None None empty_state
                eq_refl) as H.
  assert (Hin : In (extension_of "report.pdf") Server.supported_extensions)
    by (vm_compute; auto).
  specialize (H Hin eq_refl). cbv zeta in H.
  change (fst (Server.convert_body (env_failing "corrupt file")
                 (upload "report.pdf") "report.pdf" None None
                 (mkdtemp_name (env_failing "corrupt file") empty_state)
                 (set_fs (fun m => <[mkdtemp_name (env_failing "corrupt file")
                                       empty_state := Dir]> m) empty_state)))
    with (@Raise json (Exception "corrupt file")) in H.
  destruct H as [msg [E H]]. injection E as <-. exact H.
Defined.

(** X6.  [mkdtemp] is called before the [try]: when it is refused for an
    accepted upload, the exception reaches FastAPI unmapped, the answer
    is the bare 500 "Internal Server Error" without the "Conversion
    failed" detail, and the state is left as it was. *)
Theorem convert_mkdtemp_refused (env : Env) (file : Server.UploadFile)
        (fname : string) (output_path filename : option string) (s : State)
        (msg : string) :
  Server.filename file = Some fname ->
  In (extension_of fname) Server.supported_extensions ->
  os_error env s SysMkdtemp = Some msg ->
  Server.convert_document env file output_path filename s
  = (Raise (Exception msg), s)
  /\ Server.respond (Server.convert_document env file output_path filename) s
     = ({| Server.status := 500;
           Server.body := JStr "Internal Server Error" |}, s).
Proof.
  intros Hf Hin Hmk.
  assert (E : Server.convert_document env file output_path filename s
              = (Raise (Exception msg), s)).
  { rewrite (server_convert_document_accepted env file fname) by assumption.
    unfold Server.convert_upload, mkdtemp, os_call.
    unfold bind at 1. unfold bind at 1. cbv beta. rewrite Hmk. reflexivity. }
  unfold Server.respond. rewrite E. split; reflexivity.
Qed.

Lemma convert_mkdtemp_refused_witness :
  Server.convert_document (env_refusing_mkdtemp "No space left on device")
    (upload "report.pdf") None None empty_state
  = (Raise (Exception "No space left on device"), empty_state)
  /\ Server.respond
       (Server.convert_document (env_refusing_mkdtemp "No space left on device")
          (upload "report.pdf") None None) empty_state
     = ({| Server.status := 500;
           Server.body := JStr "Internal Server Error" |}, empty_state).
Proof.
  apply (convert_mkdtemp_refused (env_refusing_mkdtemp "No space left on device")
           (upload "report.pdf") "report.pdf" None None empty_state).
  - reflexivity.
  - vm_compute. auto.
  - reflexivity.
Defined.

(** X7.  The command-line adapter reports whatever the converter raises
    with its message: when the library loads and the input exists, an
    exception of the constructor, of [convert] or of the Markdown export
    gives the result {success: false, error: <message>}. *)
Theorem cli_converter_exception_reported (env : Env) (input_path : string)
        (output_path : option string) (s : State) (msg : string) :
  docling_importable env = true ->
  is_Some (fs s !! input_path) ->
  (converter_init env s = Some msg
   \/ (converter_init env s = None
       /\ (converter_convert env s input_path = inl msg
           \/ exists doc, converter_convert env s input_path = inr doc
                          /\ export_to_markdown doc = inl msg))) ->
  fst (Cli.convert_document env input_path output_path s)
  = Return [("success", JBool false); ("error", JStr msg)].
Proof.
  intros Himp Hex Hraise.
  unfold Cli.convert_document. rewrite Himp.
  unfold try_except, bind, os_path_exists, new_DocumentConverter, convert,
    export.
  cbn [negb]. cbv beta iota.
  rewrite bool_decide_eq_true_2 by exact Hex.
  cbn [negb]. cbv beta iota.
  destruct Hraise as [Hi | [Hi [Hc | [doc [Hc He]]]]]; rewrite Hi.
  - reflexivity.
  - rewrite Hc. reflexivity.
  - rewrite Hc, He. reflexivity.
Qed.

Lemma cli_converter_exception_reported_witness :
  fst (Cli.convert_document (env_failing "corrupt file") "report.pdf" None
         (state_with_file "report.pdf"))
  = Return [("success", JBool false); ("error", JStr "corrupt file")].
Proof.
  apply (cli_converter_exception_reported (env_failing "corrupt file")
           "report.pdf" None (state_with_file "report.pdf") "corrupt file").
  - reflexivity.
  - exists (File "%PDF-1.7"). apply lookup_singleton_eq.
  - right. split; [reflexivity|]. left. reflexivity.
Defined.

(** *** Conversions, files and saved output *)

(** Outside the removed tree [remove_tree] changes nothing. *)
Lemma remove_tree_lookup_other (d p : string) (m : gmap string node) :
  under d p = false -> remove_tree d m !! p = m !! p.
Proof.
  intros Hu. unfold remove_tree. destruct (m !! p) as [x|] eqn:Hm.
  - apply map_lookup_filter_Some. split; [exact Hm | exact Hu].
  - apply map_lookup_filter_None. left. exact Hm.
Qed.

Lemma string_prefix_app (a b : string) : String.prefix a (a ++ b) = true.
Proof.
  induction a as [|c a IH]; simpl; [destruct b; reflexivity|].
  destruct (ascii_dec c c); [exact IH | congruence].
Qed.

(** What a command-line conversion with an output path ends with. *)
Lemma cli_convert_document_saved env ip out s :
  Py.truthy out = true ->
  (exists md d,
      fst (Cli.convert_document env ip (Some out) s) = Return d
      /\ is_success d = true
      /\ dict_get "markdown" d = Some (JStr md)
      /\ dict_get "saved_path" d = Some (JStr out)
      /\ fs (snd (Cli.convert_document env ip (Some out) s)) !! out
         = Some (File md))
  \/ (exists d,
         fst (Cli.convert_document env ip (Some out) s) = Return d
         /\ failure_shape d).
Proof.
  intros Ht. unfold Cli.convert_document, failure_shape. unfold_ops. rewrite Ht.
  run_all; try (right; eexists; split; [reflexivity | eexists; reflexivity]).
  all: left; do 2 eexists; repeat split; apply lookup_insert_eq.
Qed.

(** X8.  The command-line [convert_document] reports success only after
    one conversion of an existing input with the library loaded: a
    missing file or a missing library never gives [success] true. *)
Theorem cli_success_requires_conversion (env : Env) (input_path : string)
        (output_path : option string) (s : State) (d : dict) :
  fst (Cli.convert_document env input_path output_path s) = Return d ->
  is_success d = true ->
  docling_importable env = true
  /\ is_Some (fs s !! input_path)
  /\ convert_calls (snd (Cli.convert_document env input_path output_path s))
     = (convert_calls s ++ [input_path])%list.
Proof.
  unfold Cli.convert_document. unfold_ops.
  run_all; intros H Hok; injection H as <-; try discriminate Hok.
  all: repeat split; try reflexivity.
  all: try (destruct (docling_importable env); [reflexivity | discriminate]).
  all: match goal with
       | H : negb (bool_decide _) = false |- _ =>
           apply negb_false_iff, bool_decide_eq_true_1 in H; exact H
       end.
Qed.

Lemma cli_success_requires_conversion_witness :
  docling_importable (env_converting_to sample_markdown) = true
  /\ is_Some (fs (state_with_file "report.pdf") !! "report.pdf")
  /\ convert_calls
       (snd (Cli.convert_document (env_converting_to sample_markdown)
               "report.pdf" None (state_with_file "report.pdf")))
     = (convert_calls (state_with_file "report.pdf") ++ ["report.pdf"])%list.
Proof.
  eapply (cli_success_requires_conversion (env_converting_to sample_markdown)
            "report.pdf" None (state_with_file "report.pdf")).
  - vm_compute. reflexivity.
  - reflexivity.
Defined.

(** X9.  No call converts twice: the command-line [convert_document],
    [/convert-url] and [/convert] hand at most one source to the
    converter, namely the input path, the URL, and the upload saved under
    its own filename in the temporary directory. *)
Theorem at_most_one_conversion (env : Env) (s : State) (input_path url : string)
        (file : Server.UploadFile) (output_path filename : option string) :
  (let s' := snd (Cli.convert_document env input_path output_path s) in
   convert_calls s' = convert_calls s
   \/ convert_calls s' = (convert_calls s ++ [input_path])%list)
  /\ (let s' := snd (Server.convert_from_url env url output_path filename s) in
      convert_calls s' = convert_calls s
      \/ convert_calls s' = (convert_calls s ++ [url])%list)
  /\ (let s' := snd (Server.convert_document env file output_path filename s) in
      convert_calls s' = convert_calls s
      \/ exists fname,
           Server.filename file = Some fname
           /\ convert_calls s'
              = (convert_calls s
                 ++ [OsPath.join (mkdtemp_name env s) fname])%list).
Proof.
  cbv zeta. split; [|split].
  - unfold Cli.convert_document. unfold_ops. run_all; auto.
  - unfold Server.convert_from_url. unfold_ops. run_all; auto.
  - unfold Server.convert_document.
    destruct (Server.filename file) as [fname|]; [|auto].
    destruct (negb (Py.truthy fname)); [auto|].
    cbv zeta. destruct (negb (Server.py_in _ _)); [auto|].
    unfold Server.convert_upload. unfold_ops. run_all; eauto.
Qed.

(** X10.  Without an output path ([None] or the empty text) neither the
    command-line [convert_document] nor [/convert-url] touches the file
    system, whatever the outcome. *)
Theorem no_output_path_no_write (env : Env) (s : State) (input_path url : string)
        (output_path filename : option string) :
  Py.truthy_opt output_path = false ->
  fs (snd (Cli.convert_document env input_path output_path s)) = fs s
  /\ fs (snd (Server.convert_from_url env url output_path filename s)) = fs s.
Proof.
  intros Hop. split.
  - unfold Cli.convert_document. unfold_ops.
    destruct output_path as [out|]; simpl in Hop; rewrite ?Hop;
      run_all; reflexivity.
  - unfold Server.convert_from_url. unfold_ops.
    destruct output_path as [out|]; simpl in Hop; rewrite ?Hop;
      run_all; reflexivity.
Qed.

Lemma no_output_path_no_write_witness :
  fs (snd (Cli.convert_document (env_converting_to sample_markdown)
             "report.pdf" (Some "") (state_with_file "report.pdf")))
  = fs (state_with_file "report.pdf")
  /\ fs (snd (Server.convert_from_url (env_converting_to sample_markdown)
                "https://example.org/r.pdf" (Some "") None
                (state_with_file "report.pdf")))
     = fs (state_with_file "report.pdf").
Proof.
  apply (no_output_path_no_write (env_converting_to sample_markdown)
           (state_with_file "report.pdf") "report.pdf"
           "https://example.org/r.pdf" (Some "") None).
  reflexivity.
Defined.

(** X11.  What the command-line adapter saves is what it returns: after a
    successful conversion with a non-empty output path, [saved_path] is
    that path and the file at that path holds exactly the [markdown]
    text of the result. *)
Theorem cli_saved_file_holds_markdown (env : Env) (input_path out : string)
        (s : State) (d : dict) :
  Py.truthy out = true ->
  fst (Cli.convert_document env input_path (Some out) s) = Return d ->
  is_success d = true ->
  exists md,
    dict_get "markdown" d = Some (JStr md)
    /\ dict_get "saved_path" d = Some (JStr out)
    /\ fs (snd (Cli.convert_document env input_path (Some out) s)) !! out
       = Some (File md).
Proof.
  intros Ht Hd Hok.
  destruct (cli_convert_document_saved env input_path out s Ht)
    as [[md [d' [E [_ [Hm [Hs Hf]]]]]] | [d' [E Hno]]];
    rewrite E in Hd; injection Hd as <-.
  - exists md. auto.
  - apply failure_shape_is_success in Hno. congruence.
Qed.

Lemma cli_saved_file_holds_markdown_witness :
  exists md,
    dict_get "markdown"
      [("success", JBool true);
       ("markdown", JStr sample_markdown);
       ("metadata", JObj [("title", JStr "report"); ("pages", JInt 1);
                          ("source_file", JStr "report.pdf")]);
       ("saved_path", JStr "out/report.md");
       ("character_count", JInt 20);
       ("word_count", JInt 4)] = Some (JStr md)
    /\ fs (snd (Cli.convert_document (env_converting_to sample_markdown)
                  "docs/report.pdf" (Some "out/report.md")
                  (state_with_file "docs/report.pdf"))) !! "out/report.md"
       = Some (File md).
Proof.
  destruct (cli_saved_file_holds_markdown (env_converting_to sample_markdown)
              "docs/report.pdf" "out/report.md"
              (state_with_file "docs/report.pdf")
              [("success", JBool true);
               ("markdown", JStr sample_markdown);
               ("metadata", JObj [("title", JStr "report"); ("pages", JInt 1);
                                  ("source_file", JStr "report.pdf")]);
               ("saved_path", JStr "out/report.md");
               ("character_count", JInt 20);
               ("word_count", JInt 4)]) as [md [Hm [_ Hf]]].
  - reflexivity.
  - vm_compute. reflexivity.
  - reflexivity.
  - exists md. split; assumption.
Defined.

(** X12.  [/convert-url] saves what it returns: after a 200 answer to a
    request with a non-empty output directory, [saved_path] is the
    directory joined with the requested filename ("converted.md" when
    none is given) and the file there holds the [markdown] text. *)
Theorem convert_url_saved_file_holds_markdown (env : Env) (url out : string)
        (filename : option string) (s : State) (d : dict) :
  Py.truthy out = true ->
  fst (Server.convert_from_url env url (Some out) filename s)
  = Return (JObj d) ->
  let p := OsPath.join out (Py.or_else filename "converted.md") in
  exists md,
    dict_get "markdown" d = Some (JStr md)
    /\ dict_get "saved_path" d = Some (JStr p)
    /\ fs (snd (Server.convert_from_url env url (Some out) filename s)) !! p
       = Some (File md).
Proof.
  intros Ht. cbv zeta. unfold Server.convert_from_url. unfold_ops. rewrite Ht.
  run_all; intros H; try discriminate H; injection H as <-.
  all: eexists; repeat split; apply lookup_insert_eq.
Qed.

Lemma convert_url_saved_file_holds_markdown_witness :
  exists md,
    md = "# Report"
    /\ fs (snd (Server.convert_from_url (env_converting_to "# Report")
                  "https://example.org/r.pdf" (Some "out") None empty_state))
       !! "out/converted.md" = Some (File md).
Proof.
  destruct (convert_url_saved_file_holds_markdown (env_converting_to "# Report")
              "https://example.org/r.pdf" "out" None empty_state
              [("success", JBool true);
               ("markdown", JStr "# Report");
               ("metadata", JObj [("title", JStr "Document"); ("pages", JInt 1);
                                  ("source_url", JStr "https://example.org/r.pdf")]);
               ("saved_path", JStr "out/converted.md");
               ("character_count", JInt 8);
               ("word_count", JInt 2)]) as [md [Hm [_ Hf]]].
  - reflexivity.
  - vm_compute. reflexivity.
  - exists md. split; [|exact Hf].
    simpl in Hm. injection Hm as <-. reflexivity.
Defined.

(** X13.  [/convert] saves what it returns, provided the output lies
    outside the temporary directory: after a 200 answer to a request
    with a non-empty output directory, [saved_path] is the directory
    joined with the requested filename (the stem of the upload plus
    ".md" when none is given), and the file there holds the [markdown]
    text unless that path is inside the temporary directory, which the
    final clean-up deletes. *)
Theorem convert_saved_file_holds_markdown (env : Env) (file : Server.UploadFile)
        (fname out : string) (filename : option string) (s : State) (d : dict) :
  Server.filename file = Some fname ->
  Py.truthy out = true ->
  fst (Server.convert_document env file (Some out) filename s)
  = Return (JObj d) ->
  let p := OsPath.join out (Py.or_else filename (OsPath.stem fname ++ ".md")) in
  let s' := snd (Server.convert_document env file (Some out) filename s) in
  exists md,
    dict_get "markdown" d = Some (JStr md)
    /\ dict_get "saved_path" d = Some (JStr p)
    /\ fs s' !! p
       = if under (mkdtemp_name env s) p then None else Some (File md).
Proof.
  intros Hf Ht. cbv zeta. unfold Server.convert_document. rewrite Hf.
  destruct (negb (Py.truthy fname)); [discriminate|].
  cbv zeta. destruct (negb (Server.py_in _ _)); [discriminate|].
  unfold Server.convert_upload. unfold_ops. rewrite Ht.
  run_all; intros H; try discriminate H; injection H as <-.
  all: eexists; repeat split.
  all: first [ apply remove_tree_lookup; assumption
             | rewrite remove_tree_lookup_other by assumption;
               apply lookup_insert_eq ].
Qed.

Lemma convert_saved_file_holds_markdown_witness :
  exists md,
    md = "# Report"
    /\ fs (snd (Server.convert_document (env_converting_to "# Report")
                  (upload "REPORT.PDF") (Some "out") None empty_state))
       !! "out/REPORT.md" = Some (File md).
Proof.
  destruct (convert_saved_file_holds_markdown (env_converting_to "# Report")
              (upload "REPORT.PDF") "REPORT.PDF" "out" None empty_state
              [("success", JBool true);
               ("markdown", JStr "# Report");
               ("metadata", JObj [("title", JStr "REPORT"); ("pages", JInt 1);
                                  ("source_file", JStr "REPORT.PDF")]);
               ("saved_path", JStr "out/REPORT.md");
               ("character_count", JInt 8);
               ("word_count", JInt 2)]) as [md [Hm [_ Hf]]].
  - reflexivity.
  - reflexivity.
  - vm_compute. reflexivity.
  - exists md. split; [|exact Hf].
    simpl in Hm. injection Hm as <-. reflexivity.
Defined.

Lemma string_app_assoc (a b c : string) : (a ++ b) ++ c = a ++ b ++ c.
Proof.
  induction a as [|x a IH]; [reflexivity|].
  change (String x ((a ++ b) ++ c) = String x (a ++ b ++ c)).
  f_equal. exact IH.
Qed.

(** The final file system of an accepted [/convert] request is what the
    clean-up leaves of some file system. *)
Lemma server_convert_upload_final_fs env file fname op fn s :
  os_error env s SysMkdtemp = None ->
  exists m,
    fs (snd (Server.convert_upload env file fname op fn s))
    = remove_tree (mkdtemp_name env s) m.
Proof.
  intros Hmk. unfold Server.convert_upload.
  unfold bind at 1. unfold mkdtemp.
  unfold bind at 1. unfold os_call. rewrite Hmk.
  unfold bind at 1. unfold get_state.
  unfold bind at 1. unfold modify. unfold ret at 1.
  match goal with
  | |- exists m, fs (snd (try_finally ?b (rmtree ?d) ?s1)) = _ =>
      destruct (try_finally_rmtree b d s1) as [-> _]
  end.
  eexists. reflexivity.
Qed.

(** X14.  The uploaded bytes do not outlive the request: for an accepted
    upload whose filename is relative, the copy is written to
    <temp_dir>/<filename>, and no file exists at that path when the
    handler is done. *)
Theorem convert_upload_copy_removed (env : Env) (file : Server.UploadFile)
        (fname : string) (output_path filename : option string) (s : State) :
  Server.filename file = Some fname ->
  In (extension_of fname) Server.supported_extensions ->
  os_error env s SysMkdtemp = None ->
  Py.startswith OsPath.slash fname = false ->
  Py.truthy (mkdtemp_name env s) = true ->
  Py.endswith OsPath.slash (mkdtemp_name env s) = false ->
  let temp_path := OsPath.join (mkdtemp_name env s) fname in
  temp_path = mkdtemp_name env s ++ "/" ++ fname
  /\ fs (snd (Server.convert_document env file output_path filename s))
     !! temp_path = None.
Proof.
  intros Hf Hin Hmk Hrel Htd Hend. cbv zeta.
  assert (Hj : OsPath.join (mkdtemp_name env s) fname
               = mkdtemp_name env s ++ "/" ++ fname).
  { unfold OsPath.join. rewrite Hrel, Htd, Hend. reflexivity. }
  split; [exact Hj|]. rewrite Hj.
  rewrite (server_convert_document_accepted env file fname) by assumption.
  destruct (server_convert_upload_final_fs env file fname output_path filename
              s Hmk) as [m ->].
  apply remove_tree_lookup. unfold under.
  replace (mkdtemp_name env s ++ "/" ++ fname)
    with ((mkdtemp_name env s ++ "/") ++ fname).
  - rewrite string_prefix_app. apply orb_true_r.
  - apply string_app_assoc.
Qed.

Lemma convert_upload_copy_removed_witness :
  OsPath.join "/tmp/tmpq3x9" "report.pdf" = "/tmp/tmpq3x9/report.pdf"
  /\ fs (snd (Server.convert_document (env_converting_to "# Report")
                (upload "report.pdf") None None empty_state))
     !! OsPath.join "/tmp/tmpq3x9" "report.pdf" = None.
Proof.
  apply (convert_upload_copy_removed (env_converting_to "# Report")
           (upload "report.pdf") "report.pdf" None None empty_state).
  - reflexivity.
  - vm_compute. auto.
  - reflexivity.
  - reflexivity.
  - reflexivity.
  - reflexivity.
Defined.

(** X15.  An absolute filename escapes the temporary directory:
    [os.path.join] drops the directory, so for an accepted upload whose
    filename starts with a slash the bytes are written to that very path
    and, when it lies outside the temporary directory, they are still
    there after the clean-up (here when nothing is refused and no output
    path is given). *)
Theorem convert_absolute_filename_escapes (env : Env) (file : Server.UploadFile)
        (fname : string) (output_path filename : option string) (s : State) :
  Server.filename file = Some fname ->
  In (extension_of fname) Server.supported_extensions ->
  Py.startswith OsPath.slash fname = true ->
  (forall s0 c, os_error env s0 c = None) ->
  Py.truthy_opt output_path = false ->
  under (mkdtemp_name env s) fname = false ->
  OsPath.join (mkdtemp_name env s) fname = fname
  /\ fs (snd (Server.convert_document env file output_path filename s))
     !! fname = Some (File (Server.content file)).
Proof.
  intros Hf Hin Habs Hos Hop Hu.
  assert (Hj : OsPath.join (mkdtemp_name env s) fname = fname).
  { unfold OsPath.join. rewrite Habs. reflexivity. }
  split; [exact Hj|].
  rewrite (server_convert_document_accepted env file fname) by assumption.
  unfold Server.convert_upload. unfold_ops.
  destruct output_path as [out|]; simpl in Hop; rewrite ?Hop.
  all: repeat (simpl; rewrite ?Hos, ?Hj; run_step); simpl; rewrite ?Hj.
  all: rewrite (remove_tree_lookup_other _ _ _ Hu); apply lookup_insert_eq.
Qed.

Lemma convert_absolute_filename_escapes_witness :
  OsPath.join "/tmp/tmpq3x9" "/srv/www/index.html" = "/srv/www/index.html"
  /\ fs (snd (Server.convert_document (env_failing "corrupt file")
                (upload "/srv/www/index.html") None None empty_state))
     !! "/srv/www/index.html" = Some (File "%PDF-1.7").
Proof.
  apply (convert_absolute_filename_escapes (env_failing "corrupt file")
           (upload "/srv/www/index.html") "/srv/www/index.html" None None
           empty_state).
  - reflexivity.
  - vm_compute. auto 10.
  - reflexivity.
  - reflexivity.
  - reflexivity.
  - reflexivity.
Defined.

(** *** Counters, metadata and the remaining entry points *)

(** Words need characters, and two words a white space between them. *)
Lemma split_go_length (cur s : string) :
  (2 * List.length (Py.split_go cur s)
   <= String.length s + 1 + (if String.eqb cur "" then 0 else 1))%nat.
Proof.
  revert cur. induction s as [|c s IH]; intros cur; simpl.
  - destruct (String.eqb cur ""); simpl; lia.
  - destruct (Py.isspace c).
    + destruct (String.eqb cur ""); simpl.
      * specialize (IH ""). simpl in IH. lia.
      * specialize (IH ""). simpl in IH. lia.
    + specialize (IH (cur ++ String c "")).
      destruct (String.eqb (cur ++ String c "") "");
        destruct (String.eqb cur ""); lia.
Qed.

(** X16.  In every successful result produced by an adapter the word
    count is bounded by the character count: twice [word_count] is at
    most [character_count] plus one, so [word_count] never exceeds
    [character_count] and is 0 for the empty text. *)
Theorem word_count_bounded (env : Env) (d : dict) :
  produced env d ->
  is_success d = true ->
  exists chars words,
    dict_get "character_count" d = Some (JInt chars)
    /\ dict_get "word_count" d = Some (JInt words)
    /\ 0 <= words <= chars
    /\ 2 * words <= chars + 1.
Proof.
  intros H Hok. destruct (produced_shape env d H) as [Hs | Hf].
  - destruct Hs as [md [_ [_ [_ [_ [Hc Hw]]]]]].
    exists (Z.of_nat (String.length md)),
           (Z.of_nat (List.length (Py.split md))).
    split; [exact Hc | split; [exact Hw|]].
    pose proof (split_go_length "" md) as Hb. simpl in Hb.
    unfold Py.split. lia.
  - apply failure_shape_is_success in Hf. congruence.
Qed.

Lemma word_count_bounded_witness :
  exists chars words,
    dict_get "character_count"
      [("success", JBool true);
       ("markdown", JStr sample_markdown);
       ("metadata", JObj [("title", JStr "report"); ("pages", JInt 1);
                          ("source_file", JStr "report.pdf")]);
       ("saved_path", JNull);
       ("character_count", JInt 20);
       ("word_count", JInt 4)] = Some (JInt chars)
    /\ 2 * words <= chars + 1.
Proof.
  destruct (word_count_bounded (env_converting_to sample_markdown)
              [("success", JBool true);
               ("markdown", JStr sample_markdown);
               ("metadata", JObj [("title", JStr "report"); ("pages", JInt 1);
                                  ("source_file", JStr "report.pdf")]);
               ("saved_path", JNull);
               ("character_count", JInt 20);
               ("word_count", JInt 4)]) as [chars [words [Hc [_ [_ Hb]]]]].
  - apply (produced_by_cli _ "report.pdf" None (state_with_file "report.pdf")).
    vm_compute. reflexivity.
  - reflexivity.
  - exists chars, words. split; assumption.
Defined.

(** An upload that passes validation has a non-empty stem. *)
Lemma accepted_stem_nonempty (fname : string) :
  In (extension_of fname) Server.supported_extensions ->
  OsPath.stem fname <> "".
Proof.
  unfold extension_of, OsPath.suffix, OsPath.stem.
  destruct (Py.rfind OsPath.dot (OsPath.name fname)) as [i|];
    [|vm_compute; intuition discriminate].
  destruct ((0 <? i) && (i <? String.length (OsPath.name fname) - 1))%nat
    eqn:Hi; [|vm_compute; intuition discriminate].
  intros _. apply andb_true_iff in Hi. destruct Hi as [H0 H1].
  apply Nat.ltb_lt in H0. apply Nat.ltb_lt in H1.
  destruct (OsPath.name fname) as [|c nm]; simpl in H1; [lia|].
  destruct i as [|i]; [lia|]. unfold Py.slice_to. simpl. discriminate.
Qed.

(** X17.  The title of a server result is never empty: in the body of a
    200 answer of [/convert] (for an upload named [fname]) and of
    [/convert-url], [metadata.title] is the title of the document when
    it has a non-empty one, else the stem of the filename, respectively
    "Document", and these are non-empty texts. *)
Theorem server_title_nonempty (env : Env) (s : State) (d : dict)
        (file : Server.UploadFile) (url : string)
        (output_path filename : option string) :
  fst (Server.convert_document env file output_path filename s) = Return (JObj d)
  \/ fst (Server.convert_from_url env url output_path filename s)
     = Return (JObj d) ->
  exists meta t,
    dict_get "metadata" d = Some (JObj meta)
    /\ dict_get "title" meta = Some (JStr t)
    /\ t <> "".
Proof.
  intros [H | H]; revert H.
  - unfold Server.convert_document.
    destruct (Server.filename file) as [fname|]; [|discriminate].
    destruct (negb (Py.truthy fname)); [discriminate|].
    cbv zeta. destruct (negb (Server.py_in _ _)) eqn:Hin; [discriminate|].
    apply negb_false_iff, py_in_In in Hin.
    pose proof (accepted_stem_nonempty fname Hin) as Hstem.
    unfold Server.convert_upload. unfold_ops.
    run_all; intros H; try discriminate H; injection H as <-.
    all: do 2 eexists; repeat split.
    all: unfold Py.or_else; destruct (title _) as [t|]; [|exact Hstem].
    all: unfold Py.truthy; destruct (String.eqb t "") eqn:Ht; simpl;
      [exact Hstem | apply String.eqb_neq; exact Ht].
  - unfold Server.convert_from_url. unfold_ops.
    run_all; intros H; try discriminate H; injection H as <-.
    all: do 2 eexists; repeat split.
    all: unfold Py.or_else; destruct (title _) as [t|]; [|discriminate].
    all: unfold Py.truthy; destruct (String.eqb t "") eqn:Ht; simpl;
      [discriminate | apply String.eqb_neq; exact Ht].
Qed.

Lemma server_title_nonempty_witness :
  exists meta t,
    dict_get "metadata"
      [("success", JBool true);
       ("markdown", JStr "# Report");
       ("metadata", JObj [("title", JStr "REPORT"); ("pages", JInt 1);
                          ("source_file", JStr "REPORT.PDF")]);
       ("saved_path", JNull);
       ("character_count", JInt 8);
       ("word_count", JInt 2)] = Some (JObj meta)
    /\ dict_get "title" meta = Some (JStr t)
    /\ t <> "".
Proof.
  apply (server_title_nonempty (env_converting_to "# Report") empty_state _
           (upload "REPORT.PDF") "" None None).
  left. vm_compute. reflexivity.
Defined.

(** X18.  A run of the command-line script that is given an output file
    and exits with 0 has written that file: its content is the
    [markdown] text of the JSON object printed last, and [saved_path]
    names it; arguments after the output file are ignored. *)
Theorem cli_run_writes_output_file (env : Env) (prog input_file out : string)
        (rest : list string) (s : State) :
  Py.truthy out = true ->
  fst (Cli.run env (prog :: input_file :: out :: rest) s) = 0 ->
  let s' := snd (Cli.run env (prog :: input_file :: out :: rest) s) in
  exists d md,
    stdout s' = (stdout s ++ [PrintJson (JObj d)])%list
    /\ dict_get "markdown" d = Some (JStr md)
    /\ dict_get "saved_path" d = Some (JStr out)
    /\ fs s' !! out = Some (File md).
Proof.
  intros Ht. cbv zeta. unfold Cli.run, Cli.main.
  change (List.length (prog :: input_file :: out :: rest) <? 2)%nat with false.
  change (2 <? List.length (prog :: input_file :: out :: rest))%nat with true.
  cbv iota. cbn [nth].
  pose proof (cli_convert_document_stdout env input_file (Some out) s) as Hout.
  unfold bind.
  destruct (cli_convert_document_saved env input_file out s Ht)
    as [[md [d [E [Hok [Hm [Hs Hf]]]]]] | [d [E Hno]]].
  - destruct (Cli.convert_document env input_file (Some out) s) as [o s1].
    simpl in E, Hout, Hf. subst o.
    unfold json_dumps, print, modify, getitem, raise, ret.
    destruct (json_dumps_error (JObj d)) as [msg|]; [simpl; discriminate|].
    intros _. exists d, md.
    unfold is_success in Hok.
    destruct (dict_get "success" d) as [[| [|] | | | |]|]; try discriminate Hok.
    simpl. rewrite Hout. auto.
  - destruct Hno as [msg ->].
    destruct (Cli.convert_document env input_file (Some out) s) as [o s1].
    simpl in E. subst o. simpl. discriminate.
Qed.

Lemma cli_run_writes_output_file_witness :
  exists d md,
    stdout (snd (Cli.run (env_converting_to sample_markdown)
                   ["convert_document.py"; "report.pdf"; "out/report.md"]
                   (state_with_file "report.pdf")))
    = [PrintJson (JObj d)]
    /\ fs (snd (Cli.run (env_converting_to sample_markdown)
                  ["convert_document.py"; "report.pdf"; "out/report.md"]
                  (state_with_file "report.pdf"))) !! "out/report.md"
       = Some (File md).
Proof.
  destruct (cli_run_writes_output_file (env_converting_to sample_markdown)
              "convert_document.py" "report.pdf" "out/report.md" []
              (state_with_file "report.pdf")) as [d [md [Ho [_ [_ Hf]]]]].
  - reflexivity.
  - vm_compute. reflexivity.
  - exists d, md. split; [exact Ho | exact Hf].
Defined.

(** Writing below the removed tree does not show after the removal. *)
Lemma remove_tree_insert_under (d k : string) (v : node) (m : gmap string node) :
  under d k = true ->
  remove_tree d (<[k := v]> m) = remove_tree d m.
Proof.
  intros Hk. apply map_eq. intros p.
  destruct (under d p) eqn:Hp.
  - rewrite !remove_tree_lookup by exact Hp. reflexivity.
  - rewrite !remove_tree_lookup_other by exact Hp.
    apply lookup_insert_ne. intros ->. congruence.
Qed.

(** Removing a tree that does not exist changes nothing. *)
Lemma remove_tree_fresh (d : string) (m : gmap string node) :
  (forall p, under d p = true -> m !! p = None) ->
  remove_tree d m = m.
Proof.
  intros Hfresh. apply map_eq. intros p.
  destruct (under d p) eqn:Hp.
  - rewrite remove_tree_lookup by exact Hp. symmetry. apply Hfresh, Hp.
  - apply remove_tree_lookup_other, Hp.
Qed.

Lemma under_join_relative (d fname : string) :
  Py.startswith OsPath.slash fname = false ->
  Py.truthy d = true ->
  Py.endswith OsPath.slash d = false ->
  under d (OsPath.join d fname) = true.
Proof.
  intros Hrel Htd Hend. unfold OsPath.join. rewrite Hrel, Htd, Hend.
  cbn [negb orb]. unfold under. rewrite <- string_app_assoc.
  rewrite string_prefix_app. apply orb_true_r.
Qed.

(** X19.  [/convert] without an output path leaves no trace: when
    [mkdtemp] returns a fresh directory (nothing exists at it or below
    it) and the filename of the accepted upload is relative and has no
    [".."] component, so that the copy stays inside that directory, the
    file system after the request is exactly the file system before it,
    whether the conversion succeeded or any step failed. *)
Theorem convert_leaves_no_trace (env : Env) (file : Server.UploadFile)
        (fname : string) (output_path filename : option string) (s : State) :
  Server.filename file = Some fname ->
  In (extension_of fname) Server.supported_extensions ->
  Py.truthy_opt output_path = false ->
  Py.startswith OsPath.slash fname = false ->
  no_parent_component fname = true ->
  Py.truthy (mkdtemp_name env s) = true ->
  Py.endswith OsPath.slash (mkdtemp_name env s) = false ->
  (forall p, under (mkdtemp_name env s) p = true -> fs s !! p = None) ->
  fs (snd (Server.convert_document env file output_path filename s)) = fs s.
Proof.
  intros Hf Hin Hop Hrel Hnp Htd Hend Hfresh.
  pose proof (under_join_relative _ _ Hrel Htd Hend) as Hu.
  pose proof (under_self (mkdtemp_name env s)) as Hd.
  rewrite (server_convert_document_accepted env file fname) by assumption.
  unfold Server.convert_upload. unfold_ops.
  destruct output_path as [out|]; simpl in Hop; rewrite ?Hop.
  all: run_all; try reflexivity.
  all: rewrite ?(remove_tree_insert_under _ _ _ _ Hu).
  all: rewrite ?(remove_tree_insert_under _ _ _ _ Hd).
  all: apply remove_tree_fresh, Hfresh.
Qed.

Lemma convert_leaves_no_trace_witness :
  fs (snd (Server.convert_document (env_converting_to "# Report")
             (upload "report.pdf") None None (state_with_file "report.pdf")))
  = fs (state_with_file "report.pdf").
Proof.
  apply (convert_leaves_no_trace (env_converting_to "# Report")
           (upload "report.pdf") "report.pdf" None None
           (state_with_file "report.pdf")).
  - reflexivity.
  - vm_compute. auto.
  - reflexivity.
  - reflexivity.
  - reflexivity.
  - reflexivity.
  - reflexivity.
  - intros p Hp. apply lookup_singleton_ne. intros <-. discriminate Hp.
Defined.

(** X20.  With the converter constructed, [/convert-url] hands every URL
    to the converter exactly once, whatever its form and whatever was
    converted before: no extension check, no cache of earlier results. *)
Theorem convert_url_always_converts (env : Env) (url : string)
        (output_path filename : option string) (s : State)
        (c : DocumentConverter) :
  converter s = Some c ->
  convert_calls (snd (Server.convert_from_url env url output_path filename s))
  = (convert_calls s ++ [url])%list.
Proof.
  intros Hc. unfold Server.convert_from_url. unfold_ops.
  repeat (simpl; rewrite ?Hc; run_step); simpl; reflexivity.
Qed.

Lemma convert_url_always_converts_witness :
  convert_calls
    (snd (Server.convert_from_url (env_converting_to "# Notes") "notes.txt"
            None None
            (snd (Server.convert_from_url (env_converting_to "# Notes")
                    "notes.txt" None None state_ready))))
  = ["notes.txt"; "notes.txt"].
Proof.
  apply (convert_url_always_converts (env_converting_to "# Notes") "notes.txt"
           None None
           (snd (Server.convert_from_url (env_converting_to "# Notes")
                   "notes.txt" None None state_ready))
           DocumentConverterInstance).
  reflexivity.
Defined.

(** *** Results that [json.dumps] refuses *)

(** X21.  When every page count the converter hands back is JSON
    serialisable ([None] or a number, say), every run of the
    command-line script prints exactly one JSON object and exits with 0
    when that object has [success] true and with 1 otherwise, missing
    arguments included. *)
Theorem cli_prints_one_json_when_serialisable (env : Env) (argv : list string)
        (s : State) :
  (forall s1 source doc,
      converter_convert env s1 source = inr doc ->
      json_dumps_error (num_pages doc) = None) ->
  exists d,
    stdout (snd (Cli.run env argv s)) = (stdout s ++ [PrintJson (JObj d)])%list
    /\ fst (Cli.run env argv s) = (if is_success d then 0 else 1)
    /\ (List.length argv <? 2)%nat && is_success d = false.
Proof.
  intros Hser. unfold Cli.run, Cli.main.
  destruct (List.length argv <? 2)%nat eqn:Hlen.
  - eexists. split; [reflexivity|]. split; reflexivity.
  - set (ip := nth 1 argv "").
    set (op := if (2 <? List.length argv)%nat then Some (nth 2 argv "") else None).
    pose proof (cli_convert_document_stdout env ip op s) as Hout.
    destruct (cli_convert_document_shape env ip op s) as [d [Hd Hshape]].
    destruct (cli_result_serialisable env ip op s Hser) as [d' [Hd' Hdump]].
    rewrite Hd in Hd'. injection Hd' as <-.
    exists d. unfold bind.
    destruct (Cli.convert_document env ip op s) as [o s1].
    simpl in Hd, Hout. subst o.
    unfold json_dumps. rewrite Hdump.
    unfold ret, print, modify, getitem.
    destruct Hshape as [Hs | Hf].
    + rewrite (success_shape_is_success env d Hs).
      destruct Hs as [md [_ [Hs _]]]. rewrite Hs. simpl.
      rewrite Hout. auto.
    + rewrite (failure_shape_is_success d Hf).
      destruct Hf as [msg ->]. simpl.
      rewrite Hout. auto.
Qed.

Lemma cli_prints_one_json_when_serialisable_witness :
  exists d,
    stdout (snd (Cli.run (env_converting_to sample_markdown)
                   ["convert_document.py"; "report.pdf"]
                   (state_with_file "report.pdf")))
    = (stdout (state_with_file "report.pdf") ++ [PrintJson (JObj d)])%list
    /\ fst (Cli.run (env_converting_to sample_markdown)
              ["convert_document.py"; "report.pdf"]
              (state_with_file "report.pdf"))
       = (if is_success d then 0 else 1)
    /\ (List.length ["convert_document.py"; "report.pdf"] <? 2)%nat
       && is_success d = false.
Proof.
  apply (cli_prints_one_json_when_serialisable
           (env_converting_to sample_markdown)
           ["convert_document.py"; "report.pdf"] (state_with_file "report.pdf")).
  intros s1 source doc H. injection H as <-. reflexivity.
Defined.

(** X22.  On the server the response is rendered inside the [try]: when
    the conversion of a URL succeeds but the page count of the document
    is not JSON serialisable, [/convert-url] answers 500 with the detail
    "Conversion failed: " followed by the message of the [TypeError],
    after the converter was called. *)
Theorem convert_url_unserialisable_pages (env : Env) (url : string)
        (output_path filename : option string) (s : State)
        (c : DocumentConverter) (doc : Document) (md msg : string) :
  converter s = Some c ->
  converter_convert env s url = inr doc ->
  export_to_markdown doc = inr md ->
  json_dumps_error (num_pages doc) = Some msg ->
  Py.truthy_opt output_path = false ->
  Server.respond (Server.convert_from_url env url output_path filename) s
  = ({| Server.status := 500;
        Server.body := JObj [("detail",
                              JStr ("Conversion failed: " ++ msg))] |},
     log_convert url s).
Proof.
  intros Hc Hconv Hexp Herr Hop.
  unfold Server.respond, Server.convert_from_url. unfold_ops.
  rewrite Hc. cbv beta iota. rewrite Hconv. cbv beta iota. rewrite Hexp.
  destruct output_path as [out|]; simpl in Hop; rewrite ?Hop;
    simpl; rewrite Herr; reflexivity.
Qed.

Lemma convert_url_unserialisable_pages_witness :
  Server.respond
    (Server.convert_from_url (env_docling "# Report")
       "https://example.org/r.pdf" None None) state_ready
  = ({| Server.status := 500;
        Server.body := JObj
          [("detail",
            JStr "Conversion failed: Object of type method is not JSON serializable")] |},
     log_convert "https://example.org/r.pdf" state_ready).
Proof.
  apply (convert_url_unserialisable_pages (env_docling "# Report")
           "https://example.org/r.pdf" None None state_ready
           DocumentConverterInstance (docling_document_of "# Report")
           "# Report" "Object of type method is not JSON serializable");
    reflexivity.
Defined.
